(** * gnss_ins_sim recorder: simulated IMU / reference-pose stream

    Shallow embedding of
    [src/gnss_ins_sim/src/recorder_node_allan_variance_analysis.py]:
    the generator [get_gnss_ins_sim] and the bag writer
    [gnss_ins_sim_recorder].

    Numbers are Python floats, i.e. IEEE 754 binary64: they are modelled by
    the kernel's primitive floats, whose operations round exactly as the
    Python ones do.  The trajectory simulator ([ins_sim.Sim]), the geodetic
    helper ([geoparams.geo_param]) and the ROS time and bag types are external
    packages; the simulator's output is an input of the model and the other
    collaborators are section variables. *)

From Stdlib Require Import ZArith Bool String List Lia Floats.
Import ListNotations.

Set Implicit Arguments.
Set Warnings "-inexact-float".

(** ** Python exceptions and generators *)

Inductive exn : Type :=
| ZeroDivisionError
| IndexError
| UnboundLocalError.

(** An expression either raises or returns a value. *)
Inductive result (A : Type) : Type :=
| Raised : exn -> result A
| Ok : A -> result A.
Arguments Raised {A} _.
Arguments Ok {A} _.

Definition bind {A B : Type} (r : result A) (k : A -> result B) : result B :=
  match r with
  | Raised e => Raised e
  | Ok a => k a
  end.

Notation "x <- r ;; k" := (bind r (fun x => k))
  (at level 61, r at next level, right associativity).

(** One complete run of a generator: the values it yields, in order, ended
    either by normal exhaustion or by an exception raised at the next
    [next()] call. *)
Inductive gen (A : Type) : Type :=
| StopIteration : gen A
| Raise : exn -> gen A
| Yield : A -> gen A -> gen A.
Arguments StopIteration {A}.
Arguments Raise {A} _.
Arguments Yield {A} _ _.

Fixpoint emitted {A : Type} (g : gen A) : list A :=
  match g with
  | StopIteration => []
  | Raise _ => []
  | Yield a k => a :: emitted k
  end.

Fixpoint raised {A : Type} (g : gen A) : option exn :=
  match g with
  | StopIteration => None
  | Raise e => Some e
  | Yield _ k => raised k
  end.

(** ** Floats *)

(** Python converts the [int] index to a float before [i * step_size]:
    round to nearest, ties to even. *)
Definition float_of_nat (n : nat) : float :=
  SF2Prim (binary_normalize prec emax (Z.of_nat n) 0 false).

(** Neither an infinity nor a NaN. *)
Definition finite (x : float) : bool :=
  match Prim2SF x with
  | S754_zero _ | S754_finite _ _ _ => true
  | S754_infinity _ | S754_nan => false
  end.

(** ** Simulator output *)

(** A sample is a numpy row; [r[k]] raises [IndexError] out of range. *)
Definition row := list float.

Definition index (r : row) (k : nat) : result float :=
  match nth_error r k with
  | Some v => Ok v
  | None => Raised IndexError
  end.

(** What [sim.dmgr.get_data_all] returns after [sim.run(1)] for the four
    channels the generator reads. *)
Record sim_data : Type := {
  gyro : list row;
  accel : list row;
  ref_pos : list row;
  ref_att_quat : list row
}.

(** ** The generator [get_gnss_ins_sim] *)

Record meas_data : Type := {
  gyro_x : float; gyro_y : float; gyro_z : float;
  accel_x : float; accel_y : float; accel_z : float;
  ref_pos_x : float; ref_pos_y : float; ref_pos_z : float;
  q0 : float; q1 : float; q2 : float; q3 : float
}.

Record measurement : Type := {
  stamp : float;
  data : meas_data
}.

(** Python's [zip] of four sequences stops at the first exhausted one. *)
Fixpoint zip4 {A B C D : Type}
  (la : list A) (lb : list B) (lc : list C) (ld : list D) : list (A * B * C * D) :=
  match la, lb, lc, ld with
  | a :: la', b :: lb', c :: lc', d :: ld' => (a, b, c, d) :: zip4 la' lb' lc' ld'
  | _, _, _, _ => []
  end.

Fixpoint enumerate_from {A : Type} (i : nat) (l : list A) : list (nat * A) :=
  match l with
  | [] => []
  | a :: l' => (i, a) :: enumerate_from (S i) l'
  end.

Definition enumerate {A : Type} (l : list A) : list (nat * A) := enumerate_from 0 l.

(** The dictionary built by the [yield] expression, keys in source order. *)
Definition make_measurement (step_size : float) (i : nat)
  (gyro accel ref_pos ref_att_quat : row) : result measurement :=
  let t := (float_of_nat i * step_size)%float in
  gx <- index gyro 0 ;; gy <- index gyro 1 ;; gz <- index gyro 2 ;;
  ax <- index accel 0 ;; ay <- index accel 1 ;; az <- index accel 2 ;;
  px <- index ref_pos 0 ;; py <- index ref_pos 1 ;; pz <- index ref_pos 2 ;;
  c0 <- index ref_att_quat 0 ;; c1 <- index ref_att_quat 1 ;;
  c2 <- index ref_att_quat 2 ;; c3 <- index ref_att_quat 3 ;;
  Ok {| stamp := t;
        data := {| gyro_x := gx; gyro_y := gy; gyro_z := gz;
                   accel_x := ax; accel_y := ay; accel_z := az;
                   ref_pos_x := px; ref_pos_y := py; ref_pos_z := pz;
                   q0 := c0; q1 := c1; q2 := c2; q3 := c3 |} |}.

Fixpoint gen_loop (step_size : float) (l : list (nat * (row * row * row * row)))
  : gen measurement :=
  match l with
  | [] => StopIteration
  | (i, (g, a, p, q)) :: l' =>
      match make_measurement step_size i g a p q with
      | Raised e => Raise e
      | Ok m => Yield m (gen_loop step_size l')
      end
  end.

(** The generator, from [step_size = 1.0 / fs_imu] on.  What precedes (the
    error model, [ins_sim.Sim] and [sim.run]) is the external simulator: its
    output [sim] stands for [motion_def_file], [fs_gps] and the error model.
    [1.0 / fs_imu] raises [ZeroDivisionError] when [fs_imu] compares equal
    to zero; nothing has been yielded at that point. *)
Definition get_gnss_ins_sim (sim : sim_data) (fs_imu : float) : gen measurement :=
  if (fs_imu =? 0)%float then Raise ZeroDivisionError
  else
    let step_size := (1 / fs_imu)%float in
    gen_loop step_size
      (enumerate (zip4 (gyro sim) (accel sim) (ref_pos sim) (ref_att_quat sim))).

(** Every row wide enough for the components the generator reads. *)
Definition wide (k : nat) (r : row) : bool := k <=? length r.

Definition well_formed (sim : sim_data) : bool :=
  forallb (wide 3) (gyro sim) && forallb (wide 3) (accel sim)
  && forallb (wide 3) (ref_pos sim) && forallb (wide 4) (ref_att_quat sim).

(** ** ROS messages (the fields the recorder sets) *)

Record Vector3 : Type := { vx : float; vy : float; vz : float }.

Record Quaternion : Type := { qx : float; qy : float; qz : float; qw : float }.

Definition sub3 (a b : Vector3) : Vector3 :=
  {| vx := (vx a - vx b)%float; vy := (vy a - vy b)%float; vz := (vz a - vz b)%float |}.

Definition components (v : Vector3) : list float := [vx v; vy v; vz v].

Definition zero3 : Vector3 := {| vx := 0%float; vy := 0%float; vz := 0%float |}.

Definition finite3 (v : Vector3) : bool := finite (vx v) && finite (vy v) && finite (vz v).

(** The reference position carried by a yielded dictionary. *)
Definition position_of (d : meas_data) : Vector3 :=
  {| vx := ref_pos_x d; vy := ref_pos_y d; vz := ref_pos_z d |}.

(** A row read as a 3-vector or as a quaternion, component by component
    (the default is never reached on rows that are wide enough). *)
Definition vec3_of_row (r : row) : Vector3 :=
  {| vx := nth 0 r 0%float; vy := nth 1 r 0%float; vz := nth 2 r 0%float |}.

Definition quat_of_row (r : row) : Quaternion :=
  {| qx := nth 0 r 0%float; qy := nth 1 r 0%float;
     qz := nth 2 r 0%float; qw := nth 3 r 0%float |}.

Section Recorder.

(** [rospy.Time], [rospy.Duration], [Time + Duration] and
    [Duration.from_sec]. *)
Variables Time Duration : Type.
Variable time_add : Time -> Duration -> Time.
Variable from_sec : float -> Duration.

(** [geoparams.geo_param] and the access [earth_para[2]] to its result. *)
Variable earth_params : Type.
Variable geo_param : list float -> earth_params.
Variable item2 : earth_params -> float.

(** Run parameters: the two topic names and [rospy.Time.now()] read once
    before the loop. *)
Variables topic_name_imu topic_name_pos : string.
Variable timestamp_start : Time.

Record Header : Type := { header_stamp : Time; frame_id : string }.

Record Imu : Type := {
  imu_header : Header;
  orientation : Quaternion;
  angular_velocity : Vector3;
  linear_acceleration : Vector3
}.

Record Odometry : Type := {
  odom_header : Header;
  child_frame_id : string;
  pose_position : Vector3;
  pose_orientation : Quaternion
}.

Inductive message : Type :=
| ImuMsg : Imu -> message
| OdomMsg : Odometry -> message.

(** One [bag.write(topic, msg, t)]. *)
Record bag_entry : Type := {
  entry_topic : string;
  entry_msg : message;
  entry_time : Time
}.

(** The loop's variables: [idx], the three origin locals (unbound until
    the first assignment), the bag written so far, and the arguments
    [geo_param] has been called with so far. *)
Record rec_state : Type := {
  idx : nat;
  x_ori : option float;
  y_ori : option float;
  z_ori : option float;
  bag : list bag_entry;
  geo_calls : list (list float)
}.

Definition init_state : rec_state :=
  {| idx := 0; x_ori := None; y_ori := None; z_ori := None;
     bag := []; geo_calls := [] |}.

Definition local (v : option float) : result float :=
  match v with
  | Some x => Ok x
  | None => Raised UnboundLocalError
  end.

(** The [if idx == 0:] block. *)
Definition set_pose (st : rec_state) (d : meas_data) : rec_state :=
  if Nat.eqb (idx st) 0 then
    {| idx := 1;
       x_ori := Some (ref_pos_x d);
       y_ori := Some (ref_pos_y d);
       z_ori := Some (ref_pos_z d);
       bag := bag st; geo_calls := geo_calls st |}
  else st.

(** The body of [for measurement in imu_simulator]. *)
Definition record_step (st : rec_state) (measurement : measurement)
  : result rec_state :=
  let d := data measurement in
  let st := set_pose st d in
  let t := time_add timestamp_start (from_sec (stamp measurement)) in
  xo <- local (x_ori st) ;; yo <- local (y_ori st) ;; zo <- local (z_ori st) ;;
  let msg_pos :=
    {| odom_header := {| header_stamp := t; frame_id := "inertial"%string |};
       child_frame_id := "inertial"%string;
       pose_position := {| vx := (ref_pos_x d - xo)%float;
                           vy := (ref_pos_y d - yo)%float;
                           vz := (ref_pos_z d - zo)%float |};
       pose_orientation := {| qx := q0 d; qy := q1 d; qz := q2 d; qw := q3 d |} |} in
  let rpx := (ref_pos_x d - xo)%float in
  let rpy := (ref_pos_y d - yo)%float in
  let rpz := (ref_pos_z d - zo)%float in
  let earth_para := geo_param [rpx; rpy; rpz] in
  let g := item2 earth_para in
  let msg :=
    {| imu_header := {| header_stamp := t; frame_id := "ENU"%string |};
       orientation := {| qx := q0 d; qy := q1 d; qz := q2 d; qw := q3 d |};
       angular_velocity := {| vx := gyro_x d; vy := gyro_y d; vz := gyro_z d |};
       linear_acceleration := {| vx := accel_x d; vy := accel_y d;
                                 vz := (accel_z d + g)%float |} |} in
  Ok {| idx := idx st; x_ori := x_ori st; y_ori := y_ori st; z_ori := z_ori st;
        bag := bag st ++
               [ {| entry_topic := topic_name_imu; entry_msg := ImuMsg msg;
                    entry_time := header_stamp (imu_header msg) |};
                 {| entry_topic := topic_name_pos; entry_msg := OdomMsg msg_pos;
                    entry_time := header_stamp (odom_header msg_pos) |} ];
        geo_calls := geo_calls st ++ [[rpx; rpy; rpz]] |}.

(** The [for] loop driven by the generator; an exception of the generator
    or of the body ends it, leaving what was already written. *)
Fixpoint recorder_loop (st : rec_state) (g : gen measurement)
  : rec_state * option exn :=
  match g with
  | StopIteration => (st, None)
  | Raise e => (st, Some e)
  | Yield m k =>
      match record_step st m with
      | Raised e => (st, Some e)
      | Ok st' => recorder_loop st' k
      end
  end.

Definition gnss_ins_sim_recorder (sim : sim_data) (sample_freq_imu : float)
  : rec_state * option exn :=
  recorder_loop init_state (get_gnss_ins_sim sim sample_freq_imu).

(** *** What one record contributes, given the origin *)

Definition rel_pos (o : Vector3) (d : meas_data) : Vector3 := sub3 (position_of d) o.

Definition gravity (o : Vector3) (d : meas_data) : float :=
  item2 (geo_param (components (rel_pos o d))).

Definition stamp_of (m : measurement) : Time :=
  time_add timestamp_start (from_sec (stamp m)).

Definition attitude (d : meas_data) : Quaternion :=
  {| qx := q0 d; qy := q1 d; qz := q2 d; qw := q3 d |}.

Definition imu_of (o : Vector3) (m : measurement) : Imu :=
  {| imu_header := {| header_stamp := stamp_of m; frame_id := "ENU"%string |};
     orientation := attitude (data m);
     angular_velocity := {| vx := gyro_x (data m); vy := gyro_y (data m);
                            vz := gyro_z (data m) |};
     linear_acceleration := {| vx := accel_x (data m); vy := accel_y (data m);
                               vz := (accel_z (data m) + gravity o (data m))%float |} |}.

Definition odom_of (o : Vector3) (m : measurement) : Odometry :=
  {| odom_header := {| header_stamp := stamp_of m; frame_id := "inertial"%string |};
     child_frame_id := "inertial"%string;
     pose_position := rel_pos o (data m);
     pose_orientation := attitude (data m) |}.

Definition entries_of (o : Vector3) (m : measurement) : list bag_entry :=
  [ {| entry_topic := topic_name_imu; entry_msg := ImuMsg (imu_of o m);
       entry_time := stamp_of m |};
    {| entry_topic := topic_name_pos; entry_msg := OdomMsg (odom_of o m);
       entry_time := stamp_of m |} ].

(** The origin locals are bound to [o] (and [idx] is 1). *)
Definition origin_is (st : rec_state) (o : Vector3) : Prop :=
  idx st = 1 /\ x_ori st = Some (vx o)
  /\ y_ori st = Some (vy o) /\ z_ori st = Some (vz o).

(** The state after the records [ms] have been written with origin [o]. *)
Definition written (st : rec_state) (o : Vector3) (ms : list measurement) : rec_state :=
  {| idx := 1;
     x_ori := Some (vx o); y_ori := Some (vy o); z_ori := Some (vz o);
     bag := bag st ++ flat_map (entries_of o) ms;
     geo_calls := geo_calls st ++ map (fun m => components (rel_pos o (data m))) ms |}.

(** The two messages of the [i]-th record: each record appends the
    inertial message and then the pose message. *)
Definition imu_at (b : list bag_entry) (i : nat) : option Imu :=
  match nth_error b (2 * i) with
  | Some {| entry_msg := ImuMsg msg |} => Some msg
  | _ => None
  end.

Definition odom_at (b : list bag_entry) (i : nat) : option Odometry :=
  match nth_error b (2 * i + 1) with
  | Some {| entry_msg := OdomMsg msg |} => Some msg
  | _ => None
  end.

End Recorder.

(** ** Predicates used in the statements *)

(** The fields of a yielded dictionary are the components of the four rows
    it was built from. *)
Definition built_from (step_size : float) (i : nat) (g a p q : row) (m : measurement)
  : Prop :=
  stamp m = (float_of_nat i * step_size)%float
  /\ (nth_error g 0 = Some (gyro_x (data m))
      /\ nth_error g 1 = Some (gyro_y (data m))
      /\ nth_error g 2 = Some (gyro_z (data m)))
  /\ (nth_error a 0 = Some (accel_x (data m))
      /\ nth_error a 1 = Some (accel_y (data m))
      /\ nth_error a 2 = Some (accel_z (data m)))
  /\ (nth_error p 0 = Some (ref_pos_x (data m))
      /\ nth_error p 1 = Some (ref_pos_y (data m))
      /\ nth_error p 2 = Some (ref_pos_z (data m)))
  /\ (nth_error q 0 = Some (q0 (data m))
      /\ nth_error q 1 = Some (q1 (data m))
      /\ nth_error q 2 = Some (q2 (data m))
      /\ nth_error q 3 = Some (q3 (data m))).

(** A row too short for the generator. *)
Definition too_short (g a p q : row) : Prop :=
  length g < 3 \/ length a < 3 \/ length p < 3 \/ length q < 4.

Definition rows_wide (x : nat * (row * row * row * row)) : bool :=
  match x with
  | (_, (g, a, p, q)) => wide 3 g && wide 3 a && wide 3 p && wide 4 q
  end.

Definition min4 (sim : sim_data) : nat :=
  Nat.min (Nat.min (length (gyro sim)) (length (accel sim)))
          (Nat.min (length (ref_pos sim)) (length (ref_att_quat sim))).

(** The contract of the simulator output as the specification words it: no
    channel series is empty and the rows of a series all have one width. *)
Definition ragged (s : list row) : bool :=
  match s with
  | [] => false
  | r :: s' => negb (forallb (fun r' => length r' =? length r) s')
  end.

Definition contract_violation (sim : sim_data) : bool :=
  let series := [gyro sim; accel sim; ref_pos sim; ref_att_quat sim] in
  existsb (fun s => length s =? 0) series || existsb ragged series.

(** ** A concrete environment, for evaluating runs *)

Module Scenario.

(** Time in seconds, the resolver answering one fixed gravity. *)
Definition time_add (t d : float) : float := (t + d)%float.
Definition from_sec (s : float) : float := s.
Definition fixed_gravity (g : float) (pos : list float) : float := g.
Definition item2 (earth_para : float) : float := earth_para.

Definition run (g : float) (sim : sim_data) (sample_freq_imu : float) :=
  gnss_ins_sim_recorder time_add from_sec (fixed_gravity g) item2
    "imu"%string "pos"%string 0%float sim sample_freq_imu.

(** IMU series of [n] samples and reference series of [k] samples. *)
Definition two_rates (n k : nat) : sim_data :=
  {| gyro := repeat [0; 0; 0]%float n;
     accel := repeat [0; 0; 9.8]%float n;
     ref_pos := repeat [0; 0; 0]%float k;
     ref_att_quat := repeat [0; 0; 0; 1]%float k |}.

(** Four series of lengths 5, 2, 4 and 3. *)
Definition short_accel : sim_data :=
  {| gyro := repeat [0; 0; 0]%float 5;
     accel := repeat [0; 0; 9.8]%float 2;
     ref_pos := repeat [0; 0; 0]%float 4;
     ref_att_quat := repeat [0; 0; 0; 1]%float 3 |}.

(** One stationary sample with the accelerometer reading (0.1, 0.2, 9.7). *)
Definition one_sample : sim_data :=
  {| gyro := [[0.01; 0.02; 0.03]%float];
     accel := [[0.1; 0.2; 9.7]%float];
     ref_pos := [[3; 4; 5]%float];
     ref_att_quat := [[0.1; 0.2; 0.3; 0.9]%float] |}.

(** A two-sample trajectory moving 5 m along x from a non-zero start. *)
Definition two_samples : sim_data :=
  {| gyro := [[0.01; 0.02; 0.03]; [0.04; 0.05; 0.06]]%float;
     accel := [[0.1; 0.2; 9.7]; [0.3; 0.4; 9.6]]%float;
     ref_pos := [[3; 4; 5]; [8; 4; 5]]%float;
     ref_att_quat := [[0.1; 0.2; 0.3; 0.9]; [0.2; 0.3; 0.4; 0.8]]%float |}.

Definition empty_gyro : sim_data :=
  {| gyro := [];
     accel := [[0; 0; 9.8]%float];
     ref_pos := [[0; 0; 0]%float];
     ref_att_quat := [[0; 0; 0; 1]%float] |}.

(** The second gyro row has four components. *)
Definition ragged_wide : sim_data :=
  {| gyro := [[0; 0; 0]; [0; 0; 0; 7]]%float;
     accel := [[0; 0; 9.8]; [0; 0; 9.8]]%float;
     ref_pos := [[0; 0; 0]; [1; 0; 0]]%float;
     ref_att_quat := [[0; 0; 0; 1]; [0; 0; 0; 1]]%float |}.

(** The second gyro row has two components. *)
Definition ragged_short : sim_data :=
  {| gyro := [[0; 0; 0]; [0; 0]]%float;
     accel := [[0; 0; 9.8]; [0; 0; 9.8]]%float;
     ref_pos := [[0; 0; 0]; [1; 0; 0]]%float;
     ref_att_quat := [[0; 0; 0; 1]; [0; 0; 0; 1]]%float |}.

End Scenario.

(** ** The sensor error model [imu_err] *)

(** The dictionary handed to [imu_model.IMU]: one numpy array per key. *)
Record imu_error_model : Type := {
  gyro_arw : list float;
  gyro_b_stability : list float;
  gyro_b_corr : list float;
  gyro_b : list float;
  gyro_k : list float;
  gyro_s : list float;
  accel_vrw : list float;
  accel_b_stability : list float;
  accel_b_corr : list float;
  accel_b : list float;
  accel_k : list float;
  accel_s : list float;
  mag_si : list (list float);
  mag_hi : list float;
  mag_std : list float
}.

(** [np.eye(n)]. *)
Definition np_eye (n : nat) : list (list float) :=
  map (fun i => map (fun j => if Nat.eqb i j then 1%float else 0%float) (seq 0 n))
      (seq 0 n).

(** The array one call [np.random.randn(3, 3)] returns, [draw i j] being its
    entry in row [i] and column [j]. *)
Definition np_randn_3_3 (draw : nat -> nat -> float) : list (list float) :=
  map (fun i => map (draw i) (seq 0 3)) (seq 0 3).

(** [a * c] for an array and a scalar. *)
Definition np_scale (a : list float) (c : float) : list float :=
  map (fun x => (x * c)%float) a.

Definition np_scale2 (a : list (list float)) (c : float) : list (list float) :=
  map (fun r => np_scale r c) a.

(** [a + b] for two arrays of one shape. *)
Definition np_add2 (a b : list (list float)) : list (list float) :=
  map (fun rr => map (fun xy => (fst xy + snd xy)%float) (combine (fst rr) (snd rr)))
      (combine a b).

Definition imu_err (draw : nat -> nat -> float) : imu_error_model :=
  {| gyro_arw := [0.75; 0.75; 0.75]%float;
     gyro_b_stability := [10; 10; 10]%float;
     gyro_b_corr := [100; 100; 100]%float;
     gyro_b := [0; 0; 0]%float;
     gyro_k := [1; 1; 1]%float;
     gyro_s := [0; 0; 0; 0; 0; 0]%float;
     accel_vrw := [0.05; 0.05; 0.05]%float;
     accel_b_stability := [2.0e-4; 2.0e-4; 2.0e-4]%float;
     accel_b_corr := [100; 100; 100]%float;
     accel_b := [0.0e-3; 0.0e-3; 0.0e-3]%float;
     accel_k := [1; 1; 1]%float;
     accel_s := [0; 0; 0; 0; 0; 0]%float;
     mag_si := np_add2 (np_eye 3) (np_scale2 (np_randn_3_3 draw) 0);
     mag_hi := np_scale [10; 10; 10]%float 0;
     mag_std := [0.1; 0.1; 0.1]%float |}.

(** ** Shortened and narrowed simulator outputs *)

(** The first [n] samples of every series. *)
Definition truncate (n : nat) (sim : sim_data) : sim_data :=
  {| gyro := firstn n (gyro sim);
     accel := firstn n (accel sim);
     ref_pos := firstn n (ref_pos sim);
     ref_att_quat := firstn n (ref_att_quat sim) |}.

(** Every row cut to the components the generator reads. *)
Definition trim (sim : sim_data) : sim_data :=
  {| gyro := map (firstn 3) (gyro sim);
     accel := map (firstn 3) (accel sim);
     ref_pos := map (firstn 3) (ref_pos sim);
     ref_att_quat := map (firstn 4) (ref_att_quat sim) |}.

(** ** Shape of a bag entry *)

(** An entry is written on the topic of its message kind, in the frame the
    recorder gives that kind, at the message's own header stamp. *)
Definition tagged {Time : Type} (topic_name_imu topic_name_pos : string)
  (e : bag_entry Time) : Prop :=
  match entry_msg e with
  | ImuMsg msg =>
      entry_topic e = topic_name_imu
      /\ frame_id (imu_header msg) = "ENU"%string
      /\ entry_time e = header_stamp (imu_header msg)
  | OdomMsg msg =>
      entry_topic e = topic_name_pos
      /\ frame_id (odom_header msg) = "inertial"%string
      /\ child_frame_id msg = "inertial"%string
      /\ entry_time e = header_stamp (odom_header msg)
  end.

(** A 3-by-3 draw of finite numbers. *)
Definition finite_draw (draw : nat -> nat -> float) : bool :=
  forallb (fun r => forallb finite r) (np_randn_3_3 draw).

(** ** Further trajectories for evaluating runs *)

Module Trajectory.

(** Starts at (0, 0, 0) and moves 5 m along x. *)
Definition from_zero : sim_data :=
  {| gyro := [[0.01; 0.02; 0.03]; [0.04; 0.05; 0.06]]%float;
     accel := [[0.1; 0.2; 9.7]; [0.3; 0.4; 9.6]]%float;
     ref_pos := [[0; 0; 0]; [5; 0; 0]]%float;
     ref_att_quat := [[0; 0; 0; 1]; [0; 0; 0; 1]]%float |}.

(** Starts at (3, 4, 5), moves to (8, 4, 5) and comes back. *)
Definition there_and_back : sim_data :=
  {| gyro := [[0.01; 0.02; 0.03]; [0.04; 0.05; 0.06]; [0.07; 0.08; 0.09]]%float;
     accel := [[0.1; 0.2; 9.7]; [0.3; 0.4; 9.6]; [0.5; 0.6; 9.5]]%float;
     ref_pos := [[3; 4; 5]; [8; 4; 5]; [3; 4; 5]]%float;
     ref_att_quat := [[0; 0; 0; 1]; [0; 0; 0; 1]; [0; 0; 0; 1]]%float |}.

End Trajectory.

(** * Properties *)

(** ** Lists: [zip4] and [enumerate] *)

Lemma zip4_length {A B C D : Type} (la : list A) (lb : list B) (lc : list C) (ld : list D) :
  length (zip4 la lb lc ld)
  = Nat.min (Nat.min (length la) (length lb)) (Nat.min (length lc) (length ld)).
Proof.
  revert lb lc ld.
  induction la as [|a la IH]; intros [|b lb] [|c lc] [|d ld]; simpl; try lia.
  rewrite IH. lia.
Qed.

Lemma zip4_nth_error {A B C D : Type} (la : list A) (lb : list B) (lc : list C) (ld : list D)
  (k : nat) (a : A) (b : B) (c : C) (d : D) :
  nth_error (zip4 la lb lc ld) k = Some (a, b, c, d) ->
  nth_error la k = Some a /\ nth_error lb k = Some b
  /\ nth_error lc k = Some c /\ nth_error ld k = Some d.
Proof.
  revert lb lc ld k.
  induction la as [|a' la IH]; intros [|b' lb] [|c' lc] [|d' ld] [|k]; simpl;
    try discriminate.
  - intros H. inversion H. auto.
  - apply IH.
Qed.

Lemma enumerate_from_length {A : Type} (i : nat) (l : list A) :
  length (enumerate_from i l) = length l.
Proof.
  revert i. induction l as [|a l IH]; intros i; simpl; [reflexivity|].
  now rewrite IH.
Qed.

Lemma enumerate_from_nth_error {A : Type} (s : nat) (l : list A) (k i : nat) (x : A) :
  nth_error (enumerate_from s l) k = Some (i, x) ->
  i = s + k /\ nth_error l k = Some x.
Proof.
  revert s k. induction l as [|a l IH]; intros s [|k]; simpl; try discriminate.
  - intros H. inversion H. split; [lia | reflexivity].
  - intros H. apply IH in H. destruct H as [-> H]. split; [lia | exact H].
Qed.

(** ** The generator *)

Lemma index_Ok (r : row) (k : nat) (v : float) :
  index r k = Ok v -> nth_error r k = Some v.
Proof.
  unfold index. destruct (nth_error r k); intros H; inversion H; reflexivity.
Qed.

Lemma index_wide (r : row) (n k : nat) :
  wide n r = true -> k < n -> exists v, index r k = Ok v.
Proof.
  unfold wide, index. intros Hw Hk. apply Nat.leb_le in Hw.
  destruct (nth_error r k) as [v|] eqn:E.
  - now exists v.
  - apply nth_error_None in E. lia.
Qed.

Lemma index_Raised (r : row) (k : nat) (e : exn) :
  index r k = Raised e -> e = IndexError /\ length r <= k.
Proof.
  unfold index. destruct (nth_error r k) eqn:E; intros H; inversion H.
  split; [reflexivity | now apply nth_error_None].
Qed.

Ltac split_index :=
  match goal with
  | H : context [index ?r ?k] |- _ =>
      let E := fresh "E" in
      destruct (index r k) eqn:E; simpl in H; [discriminate H|apply index_Ok in E]
  end.

Lemma make_measurement_Ok (step_size : float) (i : nat) (g a p q : row) (m : measurement) :
  make_measurement step_size i g a p q = Ok m -> built_from step_size i g a p q m.
Proof.
  unfold make_measurement. intros H.
  repeat split_index.
  inversion H; subst; clear H. unfold built_from; simpl. tauto.
Qed.

Lemma make_measurement_wide (step_size : float) (i : nat) (g a p q : row) :
  wide 3 g = true -> wide 3 a = true -> wide 3 p = true -> wide 4 q = true ->
  exists m, make_measurement step_size i g a p q = Ok m.
Proof.
  intros Hg Ha Hp Hq. unfold make_measurement.
  destruct (@index_wide g 3 0 Hg) as [g0 ->]; [lia|].
  destruct (@index_wide g 3 1 Hg) as [g1 ->]; [lia|].
  destruct (@index_wide g 3 2 Hg) as [g2 ->]; [lia|].
  destruct (@index_wide a 3 0 Ha) as [a0 ->]; [lia|].
  destruct (@index_wide a 3 1 Ha) as [a1 ->]; [lia|].
  destruct (@index_wide a 3 2 Ha) as [a2 ->]; [lia|].
  destruct (@index_wide p 3 0 Hp) as [p0 ->]; [lia|].
  destruct (@index_wide p 3 1 Hp) as [p1 ->]; [lia|].
  destruct (@index_wide p 3 2 Hp) as [p2 ->]; [lia|].
  destruct (@index_wide q 4 0 Hq) as [c0 ->]; [lia|].
  destruct (@index_wide q 4 1 Hq) as [c1 ->]; [lia|].
  destruct (@index_wide q 4 2 Hq) as [c2 ->]; [lia|].
  destruct (@index_wide q 4 3 Hq) as [c3 ->]; [lia|].
  simpl. eexists. reflexivity.
Qed.

Lemma make_measurement_Raised (step_size : float) (i : nat) (g a p q : row) (e : exn) :
  make_measurement step_size i g a p q = Raised e ->
  e = IndexError /\ too_short g a p q.
Proof.
  unfold make_measurement, too_short. intros H.
  repeat match type of H with
         | context [index ?r ?k] =>
             let E := fresh "E" in
             destruct (index r k) eqn:E; simpl in H;
             [apply index_Raised in E; destruct E as [E1 E2];
              inversion H; subst; split; [reflexivity | lia] | clear E]
         end.
  discriminate H.
Qed.

Lemma gen_loop_emitted_le (step_size : float) (l : list (nat * (row * row * row * row))) :
  length (emitted (gen_loop step_size l)) <= length l.
Proof.
  induction l as [|[i [[[g a] p] q]] l IH]; simpl; [lia|].
  destruct (make_measurement step_size i g a p q); simpl; lia.
Qed.

Lemma gen_loop_nth_error (step_size : float) (l : list (nat * (row * row * row * row)))
  (k : nat) (m : measurement) :
  nth_error (emitted (gen_loop step_size l)) k = Some m ->
  exists i g a p q,
    nth_error l k = Some (i, (g, a, p, q))
    /\ make_measurement step_size i g a p q = Ok m.
Proof.
  revert k. induction l as [|[i [[[g a] p] q]] l IH]; intros k; simpl.
  - destruct k; discriminate.
  - destruct (make_measurement step_size i g a p q) as [e|m0] eqn:E; simpl.
    + destruct k; discriminate.
    + destruct k as [|k]; simpl.
      * intros H. inversion H; subst. exists i, g, a, p, q. auto.
      * apply IH.
Qed.

Lemma gen_loop_wide (step_size : float) (l : list (nat * (row * row * row * row))) :
  forallb rows_wide l = true ->
  raised (gen_loop step_size l) = None
  /\ length (emitted (gen_loop step_size l)) = length l.
Proof.
  induction l as [|[i [[[g a] p] q]] l IH]; simpl; [auto|].
  intros H. apply andb_true_iff in H. destruct H as [Hx Hl].
  repeat (apply andb_true_iff in Hx; destruct Hx as [Hx ?]).
  destruct (@make_measurement_wide step_size i g a p q) as [m ->]; try assumption.
  simpl. destruct (IH Hl) as [-> ->]. auto.
Qed.

(** An exception of the loop is an [IndexError], raised at the first row
    that is too short; the rows before it have all been yielded. *)
Lemma gen_loop_raised (step_size : float) (l : list (nat * (row * row * row * row)))
  (e : exn) :
  raised (gen_loop step_size l) = Some e ->
  e = IndexError
  /\ exists i g a p q,
       nth_error l (length (emitted (gen_loop step_size l))) = Some (i, (g, a, p, q))
       /\ too_short g a p q.
Proof.
  induction l as [|[i [[[g a] p] q]] l IH]; simpl; [discriminate|].
  destruct (make_measurement step_size i g a p q) as [e'|m] eqn:E; simpl.
  - intros H. inversion H; subst.
    apply make_measurement_Raised in E. destruct E as [-> Hs].
    split; [reflexivity|]. exists i, g, a, p, q. auto.
  - exact IH.
Qed.

Lemma gen_loop_stopped (step_size : float) (l : list (nat * (row * row * row * row))) :
  raised (gen_loop step_size l) = None ->
  length (emitted (gen_loop step_size l)) = length l.
Proof.
  induction l as [|[i [[[g a] p] q]] l IH]; simpl; [reflexivity|].
  destruct (make_measurement step_size i g a p q); simpl; [discriminate|].
  intros H. now rewrite IH.
Qed.

Lemma forallb_zip4 (la lb lc ld : list row) (s : nat) :
  forallb (wide 3) la = true -> forallb (wide 3) lb = true ->
  forallb (wide 3) lc = true -> forallb (wide 4) ld = true ->
  forallb rows_wide (enumerate_from s (zip4 la lb lc ld)) = true.
Proof.
  revert lb lc ld s.
  induction la as [|a la IH]; intros [|b lb] [|c lc] [|d ld] s; simpl; auto.
  intros Ha Hb Hc Hd.
  apply andb_true_iff in Ha, Hb, Hc, Hd.
  destruct Ha as [-> Ha], Hb as [-> Hb], Hc as [-> Hc], Hd as [-> Hd]. simpl.
  now apply IH.
Qed.

Lemma get_gnss_ins_sim_le (sim : sim_data) (fs_imu : float) :
  length (emitted (get_gnss_ins_sim sim fs_imu)) <= min4 sim.
Proof.
  unfold get_gnss_ins_sim, min4.
  destruct (fs_imu =? 0)%float; simpl; [lia|].
  eapply Nat.le_trans; [apply gen_loop_emitted_le|].
  unfold enumerate. rewrite enumerate_from_length, zip4_length. lia.
Qed.

Lemma get_gnss_ins_sim_wide (sim : sim_data) (fs_imu : float) :
  (fs_imu =? 0)%float = false ->
  well_formed sim = true ->
  raised (get_gnss_ins_sim sim fs_imu) = None
  /\ length (emitted (get_gnss_ins_sim sim fs_imu)) = min4 sim.
Proof.
  intros Hfs Hwf. unfold get_gnss_ins_sim, min4. rewrite Hfs.
  unfold well_formed in Hwf.
  repeat (apply andb_true_iff in Hwf; destruct Hwf as [Hwf ?]).
  destruct (@gen_loop_wide (1 / fs_imu)%float
              (enumerate (zip4 (gyro sim) (accel sim) (ref_pos sim) (ref_att_quat sim))))
    as [Hr Hl].
  { unfold enumerate. now apply forallb_zip4. }
  split; [exact Hr|].
  rewrite Hl. unfold enumerate. now rewrite enumerate_from_length, zip4_length.
Qed.

(** The [k]-th yielded dictionary is built from the [k]-th row of each of
    the four series, with index [k] in its time stamp. *)
Lemma get_gnss_ins_sim_nth_error (sim : sim_data) (fs_imu : float) (k : nat) (m : measurement) :
  nth_error (emitted (get_gnss_ins_sim sim fs_imu)) k = Some m ->
  exists g a p q,
    nth_error (gyro sim) k = Some g /\ nth_error (accel sim) k = Some a
    /\ nth_error (ref_pos sim) k = Some p /\ nth_error (ref_att_quat sim) k = Some q
    /\ built_from (1 / fs_imu)%float k g a p q m.
Proof.
  unfold get_gnss_ins_sim. destruct (fs_imu =? 0)%float; simpl.
  - destruct k; discriminate.
  - intros H. apply gen_loop_nth_error in H.
    destruct H as (i & g & a & p & q & Hn & Hm).
    apply enumerate_from_nth_error in Hn. destruct Hn as [-> Hn]. simpl in Hm.
    apply zip4_nth_error in Hn. destruct Hn as (Hg & Ha & Hp & Hq).
    exists g, a, p, q. repeat (split; [assumption|]).
    now apply make_measurement_Ok.
Qed.

(** ** Floats *)

(** A finite binary64 number minus itself is [+0]. *)
Lemma sub_diag_finite (x : float) : finite x = true -> (x - x)%float = 0%float.
Proof.
  unfold finite. intros Hx.
  apply Prim2SF_inj. rewrite sub_spec.
  destruct (Prim2SF x) as [s|s| |s m e]; try discriminate.
  - destruct s; reflexivity.
  - unfold SF64sub, SFsub. rewrite Z.sub_diag. reflexivity.
Qed.

Lemma sub3_diag_finite (v : Vector3) : finite3 v = true -> sub3 v v = zero3.
Proof.
  unfold finite3, sub3, zero3. intros H.
  apply andb_true_iff in H. destruct H as [H Hz].
  apply andb_true_iff in H. destruct H as [Hx Hy].
  now rewrite !sub_diag_finite.
Qed.

(** ** Rows read as vectors *)

Lemma nth_of_nth_error (r : row) (k : nat) (v : float) :
  nth_error r k = Some v -> nth k r 0%float = v.
Proof. intros H. now apply nth_error_nth. Qed.

Lemma built_from_rows (step_size : float) (i : nat) (g a p q : row) (m : measurement) :
  built_from step_size i g a p q m ->
  {| vx := gyro_x (data m); vy := gyro_y (data m); vz := gyro_z (data m) |} = vec3_of_row g
  /\ {| vx := accel_x (data m); vy := accel_y (data m); vz := accel_z (data m) |}
     = vec3_of_row a
  /\ position_of (data m) = vec3_of_row p.
Proof.
  intros (_ & (G0 & G1 & G2) & (A0 & A1 & A2) & (P0 & P1 & P2) & _).
  unfold vec3_of_row, position_of.
  rewrite (nth_of_nth_error _ _ G0), (nth_of_nth_error _ _ G1), (nth_of_nth_error _ _ G2).
  rewrite (nth_of_nth_error _ _ A0), (nth_of_nth_error _ _ A1), (nth_of_nth_error _ _ A2).
  rewrite (nth_of_nth_error _ _ P0), (nth_of_nth_error _ _ P1), (nth_of_nth_error _ _ P2).
  auto.
Qed.

Lemma built_from_attitude (step_size : float) (i : nat) (g a p q : row) (m : measurement) :
  built_from step_size i g a p q m -> attitude (data m) = quat_of_row q.
Proof.
  intros (_ & _ & _ & _ & (C0 & C1 & C2 & C3)).
  unfold attitude, quat_of_row.
  now rewrite (nth_of_nth_error _ _ C0), (nth_of_nth_error _ _ C1),
    (nth_of_nth_error _ _ C2), (nth_of_nth_error _ _ C3).
Qed.

(** ** The recorder loop *)

Section RecorderProperties.

Variables Time Duration : Type.
Variable time_add : Time -> Duration -> Time.
Variable from_sec : float -> Duration.
Variable earth_params : Type.
Variable geo_param : list float -> earth_params.
Variable item2 : earth_params -> float.
Variables topic_name_imu topic_name_pos : string.
Variable timestamp_start : Time.

Local Abbreviation step :=
  (record_step time_add from_sec geo_param item2
     topic_name_imu topic_name_pos timestamp_start).
Local Abbreviation loop :=
  (recorder_loop time_add from_sec geo_param item2
     topic_name_imu topic_name_pos timestamp_start).
Local Abbreviation recorder :=
  (gnss_ins_sim_recorder time_add from_sec geo_param item2
     topic_name_imu topic_name_pos timestamp_start).
Local Abbreviation entries :=
  (entries_of time_add from_sec geo_param item2
     topic_name_imu topic_name_pos timestamp_start).
Local Abbreviation wrote :=
  (written time_add from_sec geo_param item2
     topic_name_imu topic_name_pos timestamp_start).
Local Abbreviation imu := (imu_of time_add from_sec geo_param item2 timestamp_start).
Local Abbreviation odom := (odom_of time_add from_sec timestamp_start).
Local Abbreviation grav := (gravity geo_param item2).

(** Once bound, the origin survives every later iteration, and the
    iteration cannot raise. *)
Lemma record_step_bound (st : rec_state Time) (o : Vector3) (m : measurement) :
  origin_is st o -> step st m = Ok (wrote st o [m]).
Proof.
  destruct st as [i xo yo zo b c]. unfold origin_is. simpl.
  intros (-> & -> & -> & ->). reflexivity.
Qed.

(** The first iteration binds the origin to its own reference position. *)
Lemma record_step_first (st : rec_state Time) (m : measurement) :
  idx st = 0 -> step st m = Ok (wrote st (position_of (data m)) [m]).
Proof.
  destruct st as [i xo yo zo b c]. simpl. intros ->. reflexivity.
Qed.

Lemma written_origin (st : rec_state Time) (o : Vector3) (ms : list measurement) :
  origin_is (wrote st o ms) o.
Proof. unfold origin_is. simpl. auto. Qed.

Lemma written_written (st : rec_state Time) (o : Vector3) (ms ms' : list measurement) :
  wrote (wrote st o ms) o ms' = wrote st o (ms ++ ms').
Proof.
  unfold written. simpl. rewrite flat_map_app, map_app, <- !app_assoc. reflexivity.
Qed.

Lemma written_nil (st : rec_state Time) (o : Vector3) :
  origin_is st o -> wrote st o [] = st.
Proof.
  destruct st as [i xo yo zo b c]. unfold origin_is, written. simpl.
  intros (-> & -> & -> & ->). now rewrite !app_nil_r.
Qed.

Lemma recorder_loop_bound (g : gen measurement) (st : rec_state Time) (o : Vector3) :
  origin_is st o ->
  loop st g = (wrote st o (emitted g), raised g).
Proof.
  revert st. induction g as [|e|m k IH]; intros st Ho;
    cbn [recorder_loop emitted raised].
  - now rewrite written_nil.
  - now rewrite written_nil.
  - rewrite (@record_step_bound st o m Ho).
    rewrite IH by apply written_origin.
    now rewrite written_written.
Qed.

(** The whole loop from the initial state: nothing is written when the
    generator yields nothing; otherwise every record is written relative to
    the first record's reference position. *)
Lemma recorder_loop_init (g : gen measurement) :
  loop (init_state Time) g
  = match emitted g with
    | [] => (init_state Time, raised g)
    | m0 :: _ => (wrote (init_state Time) (position_of (data m0)) (emitted g), raised g)
    end.
Proof.
  destruct g as [|e|m k]; cbn [recorder_loop emitted raised]; try reflexivity.
  rewrite record_step_first by reflexivity.
  rewrite recorder_loop_bound with (o := position_of (data m)) by apply written_origin.
  now rewrite written_written.
Qed.

(** *** Reading the bag record by record *)

Lemma flat_map_entries_nth_error (o : Vector3) (ms : list measurement)
  (i : nat) (m : measurement) :
  nth_error ms i = Some m ->
  nth_error (flat_map (entries o) ms) (2 * i)
  = Some {| entry_topic := topic_name_imu; entry_msg := ImuMsg (imu o m);
            entry_time := stamp_of time_add from_sec timestamp_start m |}
  /\ nth_error (flat_map (entries o) ms) (2 * i + 1)
     = Some {| entry_topic := topic_name_pos; entry_msg := OdomMsg (odom o m);
               entry_time := stamp_of time_add from_sec timestamp_start m |}.
Proof.
  revert i. induction ms as [|m' ms IH]; intros [|i]; simpl; try discriminate.
  - intros H. inversion H; subst. split; reflexivity.
  - intros H. apply IH in H.
    replace (i + S (i + 0)) with (S (2 * i)) by lia.
    replace (S (2 * i) + 1) with (S (2 * i + 1)) by lia.
    exact H.
Qed.

Lemma flat_map_entries_length (o : Vector3) (ms : list measurement) :
  length (flat_map (entries o) ms) = 2 * length ms.
Proof.
  induction ms as [|m ms IH]; simpl; [reflexivity|]. rewrite IH. lia.
Qed.

(** What the run leaves behind for the [i]-th yielded record: the origin is
    the reference position of the first yielded record; the bag holds the
    record's two messages and the resolver was called on its relative
    position. *)
Lemma recorder_record (sim : sim_data) (fs_imu : float) (i : nat) (m : measurement) :
  nth_error (emitted (get_gnss_ins_sim sim fs_imu)) i = Some m ->
  exists m0,
    nth_error (emitted (get_gnss_ins_sim sim fs_imu)) 0 = Some m0
    /\ recorder sim fs_imu
       = (wrote (init_state Time) (position_of (data m0))
            (emitted (get_gnss_ins_sim sim fs_imu)),
          raised (get_gnss_ins_sim sim fs_imu))
    /\ imu_at (bag (fst (recorder sim fs_imu))) i = Some (imu (position_of (data m0)) m)
    /\ odom_at (bag (fst (recorder sim fs_imu))) i = Some (odom (position_of (data m0)) m)
    /\ nth_error (geo_calls (fst (recorder sim fs_imu))) i
       = Some (components (rel_pos (position_of (data m0)) (data m))).
Proof.
  intros Hi. unfold gnss_ins_sim_recorder. rewrite recorder_loop_init.
  destruct (emitted (get_gnss_ins_sim sim fs_imu)) as [|m0 ms] eqn:E.
  - destruct i; discriminate.
  - exists m0. split; [reflexivity|]. split; [reflexivity|].
    destruct (@flat_map_entries_nth_error (position_of (data m0)) (m0 :: ms) i m Hi)
      as [H1 H2].
    unfold imu_at, odom_at. cbn [fst written bag geo_calls init_state app].
    rewrite H1, H2. repeat split.
    rewrite nth_error_map, Hi. reflexivity.
Qed.

Lemma recorder_empty (sim : sim_data) (fs_imu : float) :
  emitted (get_gnss_ins_sim sim fs_imu) = [] ->
  recorder sim fs_imu = (init_state Time, raised (get_gnss_ins_sim sim fs_imu)).
Proof.
  intros E. unfold gnss_ins_sim_recorder. rewrite recorder_loop_init. now rewrite E.
Qed.

(** The same, with the origin and the record read off the simulator's
    series. *)
Lemma recorder_record_rows (sim : sim_data) (fs_imu : float) (i : nat) (m : measurement) :
  nth_error (emitted (get_gnss_ins_sim sim fs_imu)) i = Some m ->
  exists g a p q p0,
    (nth_error (gyro sim) i = Some g /\ nth_error (accel sim) i = Some a
     /\ nth_error (ref_pos sim) i = Some p /\ nth_error (ref_att_quat sim) i = Some q)
    /\ nth_error (ref_pos sim) 0 = Some p0
    /\ built_from (1 / fs_imu)%float i g a p q m
    /\ fst (recorder sim fs_imu)
       = wrote (init_state Time) (vec3_of_row p0) (emitted (get_gnss_ins_sim sim fs_imu))
    /\ imu_at (bag (fst (recorder sim fs_imu))) i = Some (imu (vec3_of_row p0) m)
    /\ odom_at (bag (fst (recorder sim fs_imu))) i = Some (odom (vec3_of_row p0) m)
    /\ nth_error (geo_calls (fst (recorder sim fs_imu))) i
       = Some (components (rel_pos (vec3_of_row p0) (data m))).
Proof.
  intros Hi.
  destruct (recorder_record sim fs_imu i Hi) as (m0 & H0 & Hrun & Himu & Hodom & Hgeo).
  destruct (get_gnss_ins_sim_nth_error sim fs_imu i Hi)
    as (g & a & p & q & Hg & Ha & Hp & Hq & Hb).
  destruct (get_gnss_ins_sim_nth_error sim fs_imu 0 H0)
    as (g0 & a0 & p0 & c0 & _ & _ & Hp0 & _ & Hb0).
  apply built_from_rows in Hb0. destruct Hb0 as (_ & _ & Ho).
  rewrite Ho in Hrun, Himu, Hodom, Hgeo.
  exists g, a, p, q, p0.
  split; [auto|]. split; [exact Hp0|]. split; [exact Hb|].
  split; [now rewrite Hrun|]. auto.
Qed.

(** *** The claims about the recorded messages *)

(** C2, as the code has it.  In the inertial message of every emitted record
    the x and y accelerations are the raw simulated ones and the z
    acceleration is the binary64 sum of the raw one and the gravity the
    resolver returned for that record; the raw sample (0.1, 0.2, 9.7) with
    gravity 9.81 gives (0.1, 0.2, 19.509999999999998). *)
Theorem corrected_acceleration (sim : sim_data) (fs_imu : float) (i : nat) (m : measurement) :
  nth_error (emitted (get_gnss_ins_sim sim fs_imu)) i = Some m ->
  exists a c msg,
    nth_error (accel sim) i = Some a
    /\ nth_error (geo_calls (fst (recorder sim fs_imu))) i = Some c
    /\ imu_at (bag (fst (recorder sim fs_imu))) i = Some msg
    /\ linear_acceleration msg
       = {| vx := nth 0 a 0%float; vy := nth 1 a 0%float;
            vz := (nth 2 a 0 + item2 (geo_param c))%float |}
    /\ (a = [0.1; 0.2; 9.7]%float -> item2 (geo_param c) = 9.81%float ->
        linear_acceleration msg
        = {| vx := 0.1%float; vy := 0.2%float; vz := 19.509999999999998%float |}).
Proof.
  intros Hi.
  destruct (recorder_record_rows sim fs_imu i Hi)
    as (g & a & p & q & p0 & (_ & Ha & _ & _) & _ & Hb & _ & Himu & _ & Hgeo).
  apply built_from_rows in Hb. destruct Hb as (_ & Hacc & _).
  exists a, (components (rel_pos (vec3_of_row p0) (data m))), (imu (vec3_of_row p0) m).
  repeat (split; [assumption|]).
  assert (E : linear_acceleration (imu (vec3_of_row p0) m)
              = {| vx := nth 0 a 0%float; vy := nth 1 a 0%float;
                   vz := (nth 2 a 0
                          + item2 (geo_param
                                     (components (rel_pos (vec3_of_row p0) (data m)))))%float |}).
  { unfold vec3_of_row in Hacc. inversion Hacc. reflexivity. }
  split; [exact E|].
  intros -> Hg. rewrite E, Hg. vm_compute. reflexivity.
Qed.

(** C3. The first iteration binds the origin to the reference position of
    its record and no later iteration changes it; the pose message of every
    emitted record [i] carries [ref_pos[i] - ref_pos[0]], component by
    component, the run ends with the origin still [ref_pos[0]], and the pose
    of the first record is the zero vector whenever the first reference
    position consists of finite numbers. *)
Theorem origin_set_once_and_relative_position
  (sim : sim_data) (fs_imu : float) (i : nat) (m : measurement) :
  nth_error (emitted (get_gnss_ins_sim sim fs_imu)) i = Some m ->
  exists p0 p od,
    nth_error (ref_pos sim) 0 = Some p0 /\ nth_error (ref_pos sim) i = Some p
    /\ (forall m1, exists st1,
          step (init_state Time) m1 = Ok st1 /\ origin_is st1 (position_of (data m1)))
    /\ (forall st o m', origin_is st o ->
          exists st', step st m' = Ok st' /\ origin_is st' o)
    /\ origin_is (fst (recorder sim fs_imu)) (vec3_of_row p0)
    /\ odom_at (bag (fst (recorder sim fs_imu))) i = Some od
    /\ pose_position od = sub3 (vec3_of_row p) (vec3_of_row p0)
    /\ (i = 0 -> finite3 (vec3_of_row p0) = true -> pose_position od = zero3).
Proof.
  intros Hi.
  destruct (recorder_record_rows sim fs_imu i Hi)
    as (g & a & p & q & p0 & (_ & _ & Hp & _) & Hp0 & Hb & Hrun & _ & Hodom & _).
  apply built_from_rows in Hb. destruct Hb as (_ & _ & Hpos).
  exists p0, p, (odom (vec3_of_row p0) m).
  split; [exact Hp0|]. split; [exact Hp|]. split.
  { intros m1. eexists. split; [now apply record_step_first|apply written_origin]. }
  split.
  { intros st o m' Ho. exists (wrote st o [m']).
    split; [apply record_step_bound; exact Ho|apply written_origin]. }
  split; [rewrite Hrun; apply written_origin|].
  split; [exact Hodom|].
  assert (E : pose_position (odom (vec3_of_row p0) m)
              = sub3 (vec3_of_row p) (vec3_of_row p0)).
  { cbn [odom_of pose_position]. unfold rel_pos. now rewrite Hpos. }
  split; [exact E|].
  intros -> Hfin. rewrite E. rewrite Hp0 in Hp. inversion Hp; subst.
  now apply sub3_diag_finite.
Qed.

(** C5. The resolver is called once per emitted record, in order, each time
    on that record's position relative to the origin [ref_pos[0]], and the
    gravity added to the record's z acceleration is the result of that
    record's own call. *)
Theorem gravity_resolved_per_record (sim : sim_data) (fs_imu : float) :
  length (geo_calls (fst (recorder sim fs_imu)))
  = length (emitted (get_gnss_ins_sim sim fs_imu))
  /\ forall (i : nat) (m : measurement),
       nth_error (emitted (get_gnss_ins_sim sim fs_imu)) i = Some m ->
       exists p0 p msg,
         nth_error (ref_pos sim) 0 = Some p0 /\ nth_error (ref_pos sim) i = Some p
         /\ nth_error (geo_calls (fst (recorder sim fs_imu))) i
            = Some (components (sub3 (vec3_of_row p) (vec3_of_row p0)))
         /\ imu_at (bag (fst (recorder sim fs_imu))) i = Some msg
         /\ vz (linear_acceleration msg)
            = (accel_z (data m)
               + item2 (geo_param (components (sub3 (vec3_of_row p) (vec3_of_row p0)))))%float.
Proof.
  split.
  - destruct (emitted (get_gnss_ins_sim sim fs_imu)) as [|m0 ms] eqn:E.
    + now rewrite (recorder_empty sim fs_imu E).
    + destruct (@recorder_record sim fs_imu 0 m0) as (m0' & _ & Hrun & _).
      { now rewrite E. }
      rewrite Hrun. cbn [fst written geo_calls init_state app].
      now rewrite E, length_map.
  - intros i m Hi.
    destruct (recorder_record_rows sim fs_imu i Hi)
      as (g & a & p & q & p0 & (_ & _ & Hp & _) & Hp0 & Hb & _ & Himu & _ & Hgeo).
    apply built_from_rows in Hb. destruct Hb as (_ & _ & Hpos).
    exists p0, p, (imu (vec3_of_row p0) m).
    unfold rel_pos in Hgeo. rewrite Hpos in Hgeo.
    repeat (split; [assumption|]).
    cbn [imu_of linear_acceleration vz]. unfold gravity, rel_pos. now rewrite Hpos.
Qed.

(** C6. Every emitted record [i] is written as exactly two bag entries, the
    inertial message and then the pose message, both stamped
    [timestamp_start + from_sec(stamp)]; the inertial message carries the
    attitude quaternion, the raw gyro sample and the corrected acceleration,
    the pose message the origin-relative position and the same quaternion. *)
Theorem two_messages_per_record (sim : sim_data) (fs_imu : float) :
  length (bag (fst (recorder sim fs_imu)))
  = 2 * length (emitted (get_gnss_ins_sim sim fs_imu))
  /\ forall (i : nat) (m : measurement),
       nth_error (emitted (get_gnss_ins_sim sim fs_imu)) i = Some m ->
       exists g a p q p0 c msg msg_pos,
         (nth_error (gyro sim) i = Some g /\ nth_error (accel sim) i = Some a
          /\ nth_error (ref_pos sim) i = Some p /\ nth_error (ref_att_quat sim) i = Some q
          /\ nth_error (ref_pos sim) 0 = Some p0
          /\ nth_error (geo_calls (fst (recorder sim fs_imu))) i = Some c)
         /\ nth_error (bag (fst (recorder sim fs_imu))) (2 * i)
            = Some {| entry_topic := topic_name_imu; entry_msg := ImuMsg msg;
                      entry_time := time_add timestamp_start (from_sec (stamp m)) |}
         /\ nth_error (bag (fst (recorder sim fs_imu))) (2 * i + 1)
            = Some {| entry_topic := topic_name_pos; entry_msg := OdomMsg msg_pos;
                      entry_time := time_add timestamp_start (from_sec (stamp m)) |}
         /\ header_stamp (imu_header msg) = time_add timestamp_start (from_sec (stamp m))
         /\ header_stamp (odom_header msg_pos)
            = time_add timestamp_start (from_sec (stamp m))
         /\ orientation msg = quat_of_row q
         /\ angular_velocity msg = vec3_of_row g
         /\ linear_acceleration msg
            = {| vx := nth 0 a 0%float; vy := nth 1 a 0%float;
                 vz := (nth 2 a 0 + item2 (geo_param c))%float |}
         /\ pose_position msg_pos = sub3 (vec3_of_row p) (vec3_of_row p0)
         /\ pose_orientation msg_pos = quat_of_row q.
Proof.
  split.
  - destruct (emitted (get_gnss_ins_sim sim fs_imu)) as [|m0 ms] eqn:E.
    + now rewrite (recorder_empty sim fs_imu E).
    + destruct (@recorder_record sim fs_imu 0 m0) as (m0' & _ & Hrun & _).
      { now rewrite E. }
      rewrite Hrun. cbn [fst written bag init_state app].
      now rewrite E, flat_map_entries_length.
  - intros i m Hi.
    destruct (recorder_record_rows sim fs_imu i Hi)
      as (g & a & p & q & p0 & (Hg & Ha & Hp & Hq) & Hp0 & Hb & Hrun & _ & _ & Hgeo).
    pose proof (built_from_attitude Hb) as Hatt.
    apply built_from_rows in Hb. destruct Hb as (Hgyr & Hacc & Hpos).
    exists g, a, p, q, p0, (components (rel_pos (vec3_of_row p0) (data m))),
      (imu (vec3_of_row p0) m), (odom (vec3_of_row p0) m).
    split; [auto 10|].
    destruct (@flat_map_entries_nth_error (vec3_of_row p0)
                (emitted (get_gnss_ins_sim sim fs_imu)) i m Hi) as [H1 H2].
    rewrite Hrun. cbn [written bag init_state app].
    split; [exact H1|]. split; [exact H2|].
    split; [reflexivity|]. split; [reflexivity|].
    split; [exact Hatt|]. split; [exact Hgyr|].
    split.
    { cbn [imu_of linear_acceleration]. unfold gravity.
      unfold vec3_of_row in Hacc. inversion Hacc. reflexivity. }
    split; [|exact Hatt].
    cbn [odom_of pose_position]. unfold rel_pos. now rewrite Hpos.
Qed.

(** C10. In both messages of every emitted record the orientation fields
    x, y, z, w are the components 0, 1, 2, 3 of the record's attitude row, in
    that order. *)
Theorem quaternion_mapped_positionally
  (sim : sim_data) (fs_imu : float) (i : nat) (m : measurement) :
  nth_error (emitted (get_gnss_ins_sim sim fs_imu)) i = Some m ->
  exists q msg msg_pos,
    nth_error (ref_att_quat sim) i = Some q
    /\ imu_at (bag (fst (recorder sim fs_imu))) i = Some msg
    /\ odom_at (bag (fst (recorder sim fs_imu))) i = Some msg_pos
    /\ (nth_error q 0 = Some (qx (orientation msg))
        /\ nth_error q 1 = Some (qy (orientation msg))
        /\ nth_error q 2 = Some (qz (orientation msg))
        /\ nth_error q 3 = Some (qw (orientation msg)))
    /\ (nth_error q 0 = Some (qx (pose_orientation msg_pos))
        /\ nth_error q 1 = Some (qy (pose_orientation msg_pos))
        /\ nth_error q 2 = Some (qz (pose_orientation msg_pos))
        /\ nth_error q 3 = Some (qw (pose_orientation msg_pos))).
Proof.
  intros Hi.
  destruct (recorder_record_rows sim fs_imu i Hi)
    as (g & a & p & q & p0 & (_ & _ & _ & Hq) & _ & Hb & _ & Himu & Hodom & _).
  destruct Hb as (_ & _ & _ & _ & Hc).
  exists q, (imu (vec3_of_row p0) m), (odom (vec3_of_row p0) m).
  split; [exact Hq|]. split; [exact Himu|]. split; [exact Hodom|].
  split; exact Hc.
Qed.

End RecorderProperties.

(** *** The recorded messages on concrete runs *)

(** The run of the specification's scenario: one sample with raw
    acceleration (0.1, 0.2, 9.7) and resolved gravity 9.81. *)
Lemma corrected_acceleration_witness :
  exists msg,
    imu_at (bag (fst (Scenario.run 9.81 Scenario.one_sample 100))) 0 = Some msg
    /\ linear_acceleration msg
       = {| vx := 0.1%float; vy := 0.2%float; vz := 19.509999999999998%float |}.
Proof.
  edestruct (@corrected_acceleration _ _ Scenario.time_add Scenario.from_sec _
               (Scenario.fixed_gravity 9.81) Scenario.item2 "imu"%string "pos"%string
               0%float Scenario.one_sample 100%float 0)
    as (a & c & msg & Ha & _ & Hmsg & _ & Hex).
  { vm_compute. reflexivity. }
  exists msg. split; [exact Hmsg|]. apply Hex.
  - simpl in Ha. inversion Ha. reflexivity.
  - reflexivity.
Defined.

(** On that run the z acceleration written to the bag is
    19.509999999999998, not the binary64 number 19.51. *)
Lemma corrected_acceleration_is_not_19_51 :
  exists msg,
    imu_at (bag (fst (Scenario.run 9.81 Scenario.one_sample 100))) 0 = Some msg
    /\ vz (linear_acceleration msg) = (9.7 + 9.81)%float
    /\ linear_acceleration msg
       <> {| vx := 0.1%float; vy := 0.2%float; vz := 19.51%float |}.
Proof.
  eexists. split; [vm_compute; reflexivity|]. split; [reflexivity|].
  intros H. apply (f_equal vz) in H. apply (f_equal Prim2SF) in H.
  vm_compute in H. discriminate H.
Qed.

(** A trajectory starting at (3, 4, 5) and moving to (8, 4, 5): the poses
    written are (0, 0, 0) and (5, 0, 0). *)
Lemma origin_set_once_and_relative_position_witness :
  (exists od,
     odom_at (bag (fst (Scenario.run 9.81 Scenario.two_samples 100))) 0 = Some od
     /\ pose_position od = zero3)
  /\ (exists od,
        odom_at (bag (fst (Scenario.run 9.81 Scenario.two_samples 100))) 1 = Some od
        /\ pose_position od = {| vx := 5%float; vy := 0%float; vz := 0%float |}).
Proof.
  split.
  - edestruct (@origin_set_once_and_relative_position _ _
                 Scenario.time_add Scenario.from_sec _
                 (Scenario.fixed_gravity 9.81) Scenario.item2 "imu"%string "pos"%string
                 0%float Scenario.two_samples 100%float 0)
      as (p0 & p & od & Hp0 & _ & _ & _ & _ & Hod & _ & Hzero).
    { vm_compute. reflexivity. }
    exists od. split; [exact Hod|]. apply Hzero; [reflexivity|].
    simpl in Hp0. inversion Hp0. vm_compute. reflexivity.
  - edestruct (@origin_set_once_and_relative_position _ _
                 Scenario.time_add Scenario.from_sec _
                 (Scenario.fixed_gravity 9.81) Scenario.item2 "imu"%string "pos"%string
                 0%float Scenario.two_samples 100%float 1)
      as (p0 & p & od & Hp0 & Hp & _ & _ & _ & Hod & Hpos & _).
    { vm_compute. reflexivity. }
    exists od. split; [exact Hod|]. rewrite Hpos.
    simpl in Hp0, Hp. inversion Hp0. inversion Hp. vm_compute. reflexivity.
Defined.

(** On the two-sample trajectory the resolver is called twice, on (0, 0, 0)
    and then on (5, 0, 0). *)
Lemma gravity_resolved_per_record_witness :
  length (geo_calls (fst (Scenario.run 9.81 Scenario.two_samples 100))) = 2
  /\ nth_error (geo_calls (fst (Scenario.run 9.81 Scenario.two_samples 100))) 1
     = Some [5; 0; 0]%float.
Proof.
  pose proof (@gravity_resolved_per_record _ _ Scenario.time_add Scenario.from_sec _
                (Scenario.fixed_gravity 9.81) Scenario.item2 "imu"%string "pos"%string
                0%float Scenario.two_samples 100%float) as [Hlen Hcall].
  split; [exact Hlen|].
  edestruct (Hcall 1) as (p0 & p & msg & Hp0 & Hp & Hc & _).
  { vm_compute. reflexivity. }
  unfold Scenario.run. rewrite Hc.
  simpl in Hp0, Hp. inversion Hp0. inversion Hp. vm_compute. reflexivity.
Defined.

(** On the two-sample trajectory four entries are written. *)
Lemma two_messages_per_record_witness :
  length (bag (fst (Scenario.run 9.81 Scenario.two_samples 100))) = 4.
Proof.
  exact (proj1 (@two_messages_per_record _ _ Scenario.time_add Scenario.from_sec _
                  (Scenario.fixed_gravity 9.81) Scenario.item2 "imu"%string "pos"%string
                  0%float Scenario.two_samples 100%float)).
Defined.

(** The attitude row (0.1, 0.2, 0.3, 0.9) is written as x = 0.1, y = 0.2,
    z = 0.3, w = 0.9 in both messages. *)
Lemma quaternion_mapped_positionally_witness :
  exists msg msg_pos,
    imu_at (bag (fst (Scenario.run 9.81 Scenario.one_sample 100))) 0 = Some msg
    /\ odom_at (bag (fst (Scenario.run 9.81 Scenario.one_sample 100))) 0 = Some msg_pos
    /\ Some (qx (orientation msg)) = Some 0.1%float
    /\ Some (qw (orientation msg)) = Some 0.9%float
    /\ Some (qx (pose_orientation msg_pos)) = Some 0.1%float
    /\ Some (qw (pose_orientation msg_pos)) = Some 0.9%float.
Proof.
  edestruct (@quaternion_mapped_positionally _ _ Scenario.time_add Scenario.from_sec _
               (Scenario.fixed_gravity 9.81) Scenario.item2 "imu"%string "pos"%string
               0%float Scenario.one_sample 100%float 0)
    as (q & msg & msg_pos & Hq & Hmsg & Hpos & (X & _ & _ & W) & (X' & _ & _ & W')).
  { vm_compute. reflexivity. }
  exists msg, msg_pos. split; [exact Hmsg|]. split; [exact Hpos|].
  simpl in Hq. inversion Hq; subst q.
  rewrite <- X, <- W, <- X', <- W'. repeat split.
Defined.

(** ** Length of the emitted sequence *)

(** C1. When the gyro and accel series have one length and the position and
    attitude series have one length, the generator ends normally after
    exactly min(len gyro, len position) records; with 1000 IMU samples and 10
    reference samples that is 10 records.  The rows are 3- and 4-vectors and
    the IMU frequency is not zero. *)
Theorem emitted_length_two_rates (sim : sim_data) (fs_imu : float) :
  (fs_imu =? 0)%float = false ->
  well_formed sim = true ->
  length (gyro sim) = length (accel sim) ->
  length (ref_pos sim) = length (ref_att_quat sim) ->
  raised (get_gnss_ins_sim sim fs_imu) = None
  /\ length (emitted (get_gnss_ins_sim sim fs_imu))
     = Nat.min (length (gyro sim)) (length (ref_pos sim))
  /\ (length (gyro sim) = 1000 -> length (ref_pos sim) = 10 ->
      length (emitted (get_gnss_ins_sim sim fs_imu)) = 10).
Proof.
  intros Hfs Hwf Hga Hpq.
  destruct (get_gnss_ins_sim_wide sim Hfs Hwf) as [Hr Hl].
  unfold min4 in Hl. rewrite <- Hga, <- Hpq, !Nat.min_id in Hl.
  split; [exact Hr|]. split; [exact Hl|].
  intros Hg Hp. rewrite Hl, Hg, Hp. reflexivity.
Qed.

Lemma emitted_length_two_rates_witness :
  raised (get_gnss_ins_sim (Scenario.two_rates 1000 10) 100) = None
  /\ length (emitted (get_gnss_ins_sim (Scenario.two_rates 1000 10) 100))
     = Nat.min (length (gyro (Scenario.two_rates 1000 10)))
               (length (ref_pos (Scenario.two_rates 1000 10)))
  /\ (length (gyro (Scenario.two_rates 1000 10)) = 1000 ->
      length (ref_pos (Scenario.two_rates 1000 10)) = 10 ->
      length (emitted (get_gnss_ins_sim (Scenario.two_rates 1000 10) 100)) = 10).
Proof.
  apply (@emitted_length_two_rates (Scenario.two_rates 1000 10) 100%float);
    vm_compute; reflexivity.
Defined.

(** C9. The generator zips the four series: on rows that are 3- and
    4-vectors and a non-zero IMU frequency it ends normally after exactly
    min(len gyro, len accel, len position, len attitude) records, whatever
    the four lengths are. *)
Theorem emitted_length_four_series (sim : sim_data) (fs_imu : float) :
  (fs_imu =? 0)%float = false ->
  well_formed sim = true ->
  raised (get_gnss_ins_sim sim fs_imu) = None
  /\ length (emitted (get_gnss_ins_sim sim fs_imu))
     = Nat.min (Nat.min (length (gyro sim)) (length (accel sim)))
               (Nat.min (length (ref_pos sim)) (length (ref_att_quat sim))).
Proof.
  intros Hfs Hwf. exact (get_gnss_ins_sim_wide sim Hfs Hwf).
Qed.

Lemma emitted_length_four_series_witness :
  raised (get_gnss_ins_sim Scenario.short_accel 100) = None
  /\ length (emitted (get_gnss_ins_sim Scenario.short_accel 100))
     = Nat.min (Nat.min 5 2) (Nat.min 4 3).
Proof.
  apply (@emitted_length_four_series Scenario.short_accel 100%float);
    vm_compute; reflexivity.
Defined.

(** ** Time stamps *)





(** ** Malformed simulator output *)

(** An empty gyro series, and a gyro series whose rows have different
    widths, both break the input contract; the generator raises on neither:
    on the first it ends normally with no record, on the second it yields
    both records. *)
Lemma violation_not_surfaced :
  (contract_violation Scenario.empty_gyro = true
   /\ get_gnss_ins_sim Scenario.empty_gyro 100 = StopIteration)
  /\ (contract_violation Scenario.ragged_wide = true
      /\ raised (get_gnss_ins_sim Scenario.ragged_wide 100) = None
      /\ length (emitted (get_gnss_ins_sim Scenario.ragged_wide 100)) = 2)
  /\ ~ (forall (sim : sim_data) (fs_imu : float),
          contract_violation sim = true ->
          raised (get_gnss_ins_sim sim fs_imu) <> None).
Proof.
  split; [split; vm_compute; reflexivity|].
  split; [repeat split; vm_compute; reflexivity|].
  intros H. apply (H Scenario.empty_gyro 100%float); vm_compute; reflexivity.
Qed.

(** * Further properties of the generator *)

(** ** Components beyond the third (fourth) are never read *)

Lemma index_firstn (r : row) (n k : nat) :
  k < n -> index (firstn n r) k = index r k.
Proof.
  intros Hk. unfold index. rewrite nth_error_firstn.
  destruct (Nat.ltb_spec k n) as [_|H]; [reflexivity | lia].
Qed.

Lemma make_measurement_trim (step_size : float) (i : nat) (g a p q : row) :
  make_measurement step_size i (firstn 3 g) (firstn 3 a) (firstn 3 p) (firstn 4 q)
  = make_measurement step_size i g a p q.
Proof.
  unfold make_measurement.
  rewrite !(@index_firstn g 3), !(@index_firstn a 3), !(@index_firstn p 3),
    !(@index_firstn q 4) by lia.
  reflexivity.
Qed.

Lemma gen_loop_trim (step_size : float) (la lb lc ld : list row) (k : nat) :
  gen_loop step_size
    (enumerate_from k (zip4 (map (firstn 3) la) (map (firstn 3) lb)
                            (map (firstn 3) lc) (map (firstn 4) ld)))
  = gen_loop step_size (enumerate_from k (zip4 la lb lc ld)).
Proof.
  revert lb lc ld k.
  induction la as [|a la IH]; intros [|b lb] [|c lc] [|d ld] k;
    cbn [map zip4 enumerate_from gen_loop]; try reflexivity.
  rewrite make_measurement_trim, IH. reflexivity.
Qed.

(** X3. Cutting every gyro, accel and position row to its first three
    components and every attitude row to its first four changes nothing: the
    generator yields the same records and ends the same way. *)
Theorem extra_components_ignored (sim : sim_data) (fs_imu : float) :
  get_gnss_ins_sim (trim sim) fs_imu = get_gnss_ins_sim sim fs_imu.
Proof.
  unfold get_gnss_ins_sim, trim, enumerate. cbn [gyro accel ref_pos ref_att_quat].
  destruct (fs_imu =? 0)%float; [reflexivity|]. apply gen_loop_trim.
Qed.

(** ** When the generator ends normally *)

Lemma make_measurement_Ok_wide (step_size : float) (i : nat) (g a p q : row) (m : measurement) :
  make_measurement step_size i g a p q = Ok m ->
  rows_wide (i, (g, a, p, q)) = true.
Proof.
  intros H. apply make_measurement_Ok in H.
  destruct H as (_ & (_ & _ & G) & (_ & _ & A) & (_ & _ & P) & (_ & _ & _ & Q)).
  assert (W : forall (r : row) (k : nat) (v : float),
             nth_error r k = Some v -> wide (S k) r = true).
  { intros r k v E. unfold wide. apply Nat.leb_le.
    apply Nat.lt_nge. intros Hle. apply nth_error_None in Hle. congruence. }
  simpl. now rewrite (W _ _ _ G), (W _ _ _ A), (W _ _ _ P), (W _ _ _ Q).
Qed.

Lemma gen_loop_stopped_wide (step_size : float) (l : list (nat * (row * row * row * row))) :
  raised (gen_loop step_size l) = None -> forallb rows_wide l = true.
Proof.
  induction l as [|[i [[[g a] p] q]] l IH]; [reflexivity|].
  cbn [gen_loop forallb].
  destruct (make_measurement step_size i g a p q) as [e|m] eqn:E; [discriminate|].
  cbn [raised]. intros H.
  now rewrite (make_measurement_Ok_wide _ _ _ _ _ _ E), IH.
Qed.

Lemma forallb_zip4_firstn (la lb lc ld : list row) (k : nat) :
  forallb rows_wide (enumerate_from k (zip4 la lb lc ld))
  = let n := Nat.min (Nat.min (length la) (length lb))
                     (Nat.min (length lc) (length ld)) in
    forallb (wide 3) (firstn n la) && forallb (wide 3) (firstn n lb)
    && forallb (wide 3) (firstn n lc) && forallb (wide 4) (firstn n ld).
Proof.
  revert lb lc ld k.
  induction la as [|a la IH]; intros [|b lb] [|c lc] [|d ld] k; try reflexivity.
  cbn [zip4 enumerate_from forallb rows_wide length]. rewrite IH.
  cbv zeta. rewrite <- !Nat.succ_min_distr. cbn [firstn forallb].
  destruct (wide 3 a), (wide 3 b), (wide 3 c), (wide 4 d);
    cbn [andb]; rewrite ?andb_false_r; reflexivity.
Qed.

(** X4. The generator ends normally exactly when the frequency is not zero
    and the rows it pairs, those of index below the length of the shortest
    series, are wide enough; it has then yielded one record per paired row.
    Otherwise it has yielded fewer.  Rows past the shortest series are never
    read. *)
Theorem normal_end_iff_paired_rows_wide (sim : sim_data) (fs_imu : float) :
  (raised (get_gnss_ins_sim sim fs_imu) = None
   <-> (fs_imu =? 0)%float = false /\ well_formed (truncate (min4 sim) sim) = true)
  /\ (raised (get_gnss_ins_sim sim fs_imu) = None ->
      length (emitted (get_gnss_ins_sim sim fs_imu)) = min4 sim)
  /\ (forall e : exn,
        raised (get_gnss_ins_sim sim fs_imu) = Some e ->
        0 < min4 sim ->
        length (emitted (get_gnss_ins_sim sim fs_imu)) < min4 sim).
Proof.
  assert (L : length (enumerate (zip4 (gyro sim) (accel sim) (ref_pos sim)
                                      (ref_att_quat sim))) = min4 sim).
  { unfold enumerate, min4. now rewrite enumerate_from_length, zip4_length. }
  assert (W : forallb rows_wide (enumerate (zip4 (gyro sim) (accel sim) (ref_pos sim)
                                                 (ref_att_quat sim)))
              = well_formed (truncate (min4 sim) sim)).
  { unfold enumerate. rewrite forallb_zip4_firstn. reflexivity. }
  unfold get_gnss_ins_sim.
  destruct (fs_imu =? 0)%float eqn:Hfs; cbn [raised emitted length].
  - split; [split; [discriminate | intros [H _]; discriminate H]|].
    split; [discriminate|]. intros e _ Hpos. exact Hpos.
  - split; [split|split].
    + intros H. split; [reflexivity|]. rewrite <- W.
      eapply gen_loop_stopped_wide. exact H.
    + intros [_ H]. rewrite <- W in H. now apply gen_loop_wide.
    + intros H. rewrite <- L. now apply gen_loop_stopped.
    + intros e H _. apply gen_loop_raised in H.
      destruct H as (_ & i & g & a & p & q & Hn & _).
      rewrite <- L. apply nth_error_Some. congruence.
Qed.

(** Two rows are paired in [Scenario.short_accel]; a malformed third gyro
    row is never reached. *)
Lemma normal_end_iff_paired_rows_wide_witness :
  raised (get_gnss_ins_sim
            {| gyro := [[0; 0; 0]; [0; 0; 0]; []]%float;
               accel := accel Scenario.short_accel;
               ref_pos := ref_pos Scenario.short_accel;
               ref_att_quat := ref_att_quat Scenario.short_accel |} 100) = None.
Proof.
  apply (proj1 (@normal_end_iff_paired_rows_wide _ 100%float)).
  split; vm_compute; reflexivity.
Defined.

(** ** Malformed simulator output, row by row *)

Lemma zip4_nth_error_inv {A B C D : Type}
  (la : list A) (lb : list B) (lc : list C) (ld : list D)
  (k : nat) (a : A) (b : B) (c : C) (d : D) :
  nth_error la k = Some a -> nth_error lb k = Some b ->
  nth_error lc k = Some c -> nth_error ld k = Some d ->
  nth_error (zip4 la lb lc ld) k = Some (a, b, c, d).
Proof.
  revert lb lc ld k.
  induction la as [|a' la IH]; intros [|b' lb] [|c' lc] [|d' ld] [|k];
    cbn [nth_error zip4]; try discriminate.
  - intros Ha Hb Hc Hd. inversion Ha. inversion Hb. inversion Hc. inversion Hd.
    reflexivity.
  - apply IH.
Qed.

Lemma enumerate_from_nth_error_inv {A : Type} (s : nat) (l : list A) (k : nat) (x : A) :
  nth_error l k = Some x -> nth_error (enumerate_from s l) k = Some (s + k, x).
Proof.
  revert s k. induction l as [|a l IH]; intros s [|k]; cbn [nth_error enumerate_from];
    try discriminate.
  - intros H. inversion H. now rewrite Nat.add_0_r.
  - intros H. rewrite (IH (S s) k H). f_equal. f_equal. lia.
Qed.

Lemma too_short_not_wide (i : nat) (g a p q : row) :
  too_short g a p q -> rows_wide (i, (g, a, p, q)) = false.
Proof.
  unfold too_short, rows_wide, wide.
  intros [H|[H|[H|H]]]; apply Nat.leb_gt in H; rewrite H;
    rewrite ?andb_false_r; reflexivity.
Qed.

Lemma forallb_nth_error {A : Type} (f : A -> bool) (l : list A) (k : nat) (x : A) :
  forallb f l = true -> nth_error l k = Some x -> f x = true.
Proof.
  intros Hall Hk. apply (proj1 (forallb_forall f l) Hall).
  eapply nth_error_In. exact Hk.
Qed.

Lemma forallb_firstn_nth_error {A : Type} (f : A -> bool) (l : list A) (n k : nat) (x : A) :
  forallb f (firstn n l) = true -> k < n -> nth_error l k = Some x -> f x = true.
Proof.
  intros Hall Hlt Hk. apply (forallb_nth_error f (firstn n l) k); [exact Hall|].
  rewrite nth_error_firstn.
  destruct (Nat.ltb_spec k n) as [_|H]; [exact Hk | lia].
Qed.

(** With a non-zero frequency, the first paired row that is too short makes
    the generator raise [IndexError], exactly after the records of the rows
    before it. *)
Lemma get_gnss_ins_sim_first_short (sim : sim_data) (fs_imu : float)
  (k : nat) (g a p q : row) :
  (fs_imu =? 0)%float = false ->
  nth_error (gyro sim) k = Some g -> nth_error (accel sim) k = Some a ->
  nth_error (ref_pos sim) k = Some p -> nth_error (ref_att_quat sim) k = Some q ->
  too_short g a p q ->
  well_formed (truncate k sim) = true ->
  raised (get_gnss_ins_sim sim fs_imu) = Some IndexError
  /\ length (emitted (get_gnss_ins_sim sim fs_imu)) = k.
Proof.
  intros Hfs Hg Ha Hp Hq Hshort Hbefore.
  unfold get_gnss_ins_sim. rewrite Hfs.
  set (l := enumerate (zip4 (gyro sim) (accel sim) (ref_pos sim) (ref_att_quat sim))).
  assert (Hk : nth_error l k = Some (k, (g, a, p, q))).
  { unfold l, enumerate.
    now rewrite (enumerate_from_nth_error_inv 0 _ k
                   (zip4_nth_error_inv _ _ _ _ k Hg Ha Hp Hq)). }
  pose proof (too_short_not_wide k Hshort) as Hnw.
  destruct (raised (gen_loop (1 / fs_imu)%float l)) as [e|] eqn:R.
  - pose proof (gen_loop_raised _ _ R) as (-> & i & g' & a' & p' & q' & Hn & Hs).
    split; [reflexivity|].
    destruct (Nat.lt_trichotomy (length (emitted (gen_loop (1 / fs_imu)%float l))) k)
      as [Hlt|[Heq|Hgt]]; [exfalso | exact Heq | exfalso].
    + unfold l, enumerate in Hn.
      apply enumerate_from_nth_error in Hn. destruct Hn as [_ Hn].
      apply zip4_nth_error in Hn. destruct Hn as (Hg' & Ha' & Hp' & Hq').
      unfold well_formed, truncate in Hbefore. cbn [gyro accel ref_pos ref_att_quat] in Hbefore.
      apply andb_true_iff in Hbefore. destruct Hbefore as [Hbefore Wq].
      apply andb_true_iff in Hbefore. destruct Hbefore as [Hbefore Wp].
      apply andb_true_iff in Hbefore. destruct Hbefore as [Wg Wa].
      pose proof (forallb_firstn_nth_error _ _ Wg Hlt Hg') as Xg.
      pose proof (forallb_firstn_nth_error _ _ Wa Hlt Ha') as Xa.
      pose proof (forallb_firstn_nth_error _ _ Wp Hlt Hp') as Xp.
      pose proof (forallb_firstn_nth_error _ _ Wq Hlt Hq') as Xq.
      pose proof (too_short_not_wide i Hs) as Hnw'.
      unfold rows_wide in Hnw'. rewrite Xg, Xa, Xp, Xq in Hnw'. discriminate Hnw'.
    + destruct (nth_error (emitted (gen_loop (1 / fs_imu)%float l)) k) as [m|] eqn:E.
      * apply gen_loop_nth_error in E.
        destruct E as (i2 & g2 & a2 & p2 & q2 & Hk2 & Hm).
        rewrite Hk in Hk2. inversion Hk2; subst.
        apply make_measurement_Ok_wide in Hm. congruence.
      * apply nth_error_None in E. lia.
  - exfalso. apply gen_loop_stopped_wide in R.
    pose proof (forallb_nth_error _ _ _ R Hk). congruence.
Qed.

(** With a non-zero frequency and paired rows that all have the components
    read, however many more they have, the generator ends normally with one
    record per paired row. *)
Lemma get_gnss_ins_sim_paired_wide (sim : sim_data) (fs_imu : float) :
  (fs_imu =? 0)%float = false ->
  well_formed (truncate (min4 sim) sim) = true ->
  raised (get_gnss_ins_sim sim fs_imu) = None
  /\ length (emitted (get_gnss_ins_sim sim fs_imu)) = min4 sim.
Proof.
  intros Hfs Hwf. unfold get_gnss_ins_sim. rewrite Hfs.
  destruct (@gen_loop_wide (1 / fs_imu)%float
              (enumerate (zip4 (gyro sim) (accel sim) (ref_pos sim) (ref_att_quat sim))))
    as [Hr Hl].
  { unfold enumerate. rewrite forallb_zip4_firstn. exact Hwf. }
  split; [exact Hr|]. rewrite Hl.
  unfold enumerate, min4. now rewrite enumerate_from_length, zip4_length.
Qed.

(** C7, as the code has it.  The generator validates nothing.  (a) Every
    record it yields is complete: its thirteen fields are components that
    exist in the rows of its index.  (b) The only exceptions are the
    division by a zero frequency, before any record, and an [IndexError] at
    a row that is too short.  (c) With a non-zero frequency and an empty
    series it ends normally without a record.  (d) With a non-zero
    frequency, the first paired row that is too short does raise
    [IndexError], after exactly the records of the rows before it have been
    yielded.  (e) Components beyond those read are accepted: cutting them
    off changes neither the records nor the ending.  (f) With a non-zero
    frequency and paired rows that all have the components read, whatever
    their widths, the generator ends normally with one record per paired
    row. *)
Theorem generator_without_validation (sim : sim_data) (fs_imu : float) :
  (forall (i : nat) (m : measurement),
      nth_error (emitted (get_gnss_ins_sim sim fs_imu)) i = Some m ->
      exists g a p q,
        nth_error (gyro sim) i = Some g /\ nth_error (accel sim) i = Some a
        /\ nth_error (ref_pos sim) i = Some p /\ nth_error (ref_att_quat sim) i = Some q
        /\ built_from (1 / fs_imu)%float i g a p q m)
  /\ (forall e : exn,
        raised (get_gnss_ins_sim sim fs_imu) = Some e ->
        (e = ZeroDivisionError /\ (fs_imu =? 0)%float = true
         /\ emitted (get_gnss_ins_sim sim fs_imu) = [])
        \/ (e = IndexError
            /\ exists g a p q,
                 let n := length (emitted (get_gnss_ins_sim sim fs_imu)) in
                 nth_error (gyro sim) n = Some g /\ nth_error (accel sim) n = Some a
                 /\ nth_error (ref_pos sim) n = Some p
                 /\ nth_error (ref_att_quat sim) n = Some q
                 /\ too_short g a p q))
  /\ ((fs_imu =? 0)%float = false ->
      gyro sim = [] \/ accel sim = [] \/ ref_pos sim = [] \/ ref_att_quat sim = [] ->
      get_gnss_ins_sim sim fs_imu = StopIteration)
  /\ (forall (k : nat) (g a p q : row),
        (fs_imu =? 0)%float = false ->
        nth_error (gyro sim) k = Some g -> nth_error (accel sim) k = Some a ->
        nth_error (ref_pos sim) k = Some p -> nth_error (ref_att_quat sim) k = Some q ->
        too_short g a p q ->
        well_formed (truncate k sim) = true ->
        raised (get_gnss_ins_sim sim fs_imu) = Some IndexError
        /\ length (emitted (get_gnss_ins_sim sim fs_imu)) = k)
  /\ get_gnss_ins_sim (trim sim) fs_imu = get_gnss_ins_sim sim fs_imu
  /\ ((fs_imu =? 0)%float = false ->
      well_formed (truncate (min4 sim) sim) = true ->
      raised (get_gnss_ins_sim sim fs_imu) = None
      /\ length (emitted (get_gnss_ins_sim sim fs_imu)) = min4 sim).
Proof.
  split; [intros i m; apply get_gnss_ins_sim_nth_error|]. split.
  { intros e. unfold get_gnss_ins_sim.
    destruct (fs_imu =? 0)%float eqn:Hfs; simpl.
    - intros H. inversion H. left. auto.
    - intros H. right. apply gen_loop_raised in H.
      destruct H as (-> & i & g & a & p & q & Hn & Hs).
      split; [reflexivity|].
      apply enumerate_from_nth_error in Hn. destruct Hn as [_ Hn].
      apply zip4_nth_error in Hn. destruct Hn as (Hg & Ha & Hp & Hq).
      exists g, a, p, q. simpl. auto. }
  split.
  { intros Hfs He. unfold get_gnss_ins_sim. rewrite Hfs.
    destruct sim as [[|g gs] [|a as'] [|p ps] [|q qs]]; simpl in *;
      try reflexivity;
      destruct He as [He|[He|[He|He]]]; discriminate He. }
  split.
  { intros k g a p q. apply get_gnss_ins_sim_first_short. }
  split.
  { unfold get_gnss_ins_sim, trim, enumerate. cbn [gyro accel ref_pos ref_att_quat].
    destruct (fs_imu =? 0)%float; [reflexivity|]. apply gen_loop_trim. }
  apply get_gnss_ins_sim_paired_wide.
Qed.

(** An empty gyro series ends the generator normally; a second gyro row of
    two components raises [IndexError] after the first record. *)
Lemma generator_without_validation_witness :
  get_gnss_ins_sim Scenario.empty_gyro 100 = StopIteration
  /\ (raised (get_gnss_ins_sim Scenario.ragged_short 100) = Some IndexError
      /\ length (emitted (get_gnss_ins_sim Scenario.ragged_short 100)) = 1).
Proof.
  split.
  - apply (proj1 (proj2 (proj2
             (generator_without_validation Scenario.empty_gyro 100%float)))).
    + vm_compute. reflexivity.
    + left. reflexivity.
  - apply (proj1 (proj2 (proj2 (proj2
             (generator_without_validation Scenario.ragged_short 100%float))))
             1 [0; 0]%float [0; 0; 9.8]%float [1; 0; 0]%float [0; 0; 0; 1]%float);
      try (vm_compute; reflexivity).
    left. vm_compute. lia.
Defined.

(** ** Shorter inputs *)

Lemma zip4_firstn {A B C D : Type} (n : nat)
  (la : list A) (lb : list B) (lc : list C) (ld : list D) :
  zip4 (firstn n la) (firstn n lb) (firstn n lc) (firstn n ld)
  = firstn n (zip4 la lb lc ld).
Proof.
  revert la lb lc ld.
  induction n as [|n IH]; intros la lb lc ld; [reflexivity|].
  destruct la as [|a la], lb as [|b lb], lc as [|c lc], ld as [|d ld];
    try reflexivity; cbn [firstn zip4];
    try (destruct (firstn n la); reflexivity);
    try (destruct (firstn n la), (firstn n lb); reflexivity);
    try (destruct (firstn n la), (firstn n lb), (firstn n lc); reflexivity).
  now rewrite IH.
Qed.

Lemma enumerate_from_firstn {A : Type} (n k : nat) (l : list A) :
  enumerate_from k (firstn n l) = firstn n (enumerate_from k l).
Proof.
  revert k l. induction n as [|n IH]; intros k [|a l]; try reflexivity.
  cbn [firstn enumerate_from]. now rewrite IH.
Qed.

Lemma gen_loop_firstn (step_size : float) (n : nat)
  (l : list (nat * (row * row * row * row))) :
  emitted (gen_loop step_size (firstn n l)) = firstn n (emitted (gen_loop step_size l)).
Proof.
  revert l. induction n as [|n IH]; intros [|[i [[[g a] p] q]] l]; try reflexivity.
  cbn [firstn gen_loop].
  destruct (make_measurement step_size i g a p q); cbn [emitted firstn];
    [reflexivity|]. now rewrite IH.
Qed.

Lemma get_gnss_ins_sim_truncate (n : nat) (sim : sim_data) (fs_imu : float) :
  emitted (get_gnss_ins_sim (truncate n sim) fs_imu)
  = firstn n (emitted (get_gnss_ins_sim sim fs_imu)).
Proof.
  unfold get_gnss_ins_sim, truncate, enumerate. cbn [gyro accel ref_pos ref_att_quat].
  destruct (fs_imu =? 0)%float; cbn [emitted]; [now rewrite firstn_nil|].
  now rewrite zip4_firstn, enumerate_from_firstn, gen_loop_firstn.
Qed.

(** ** The error model *)

(** A finite number times zero is a zero, which added to 1 or to +0 leaves
    it unchanged. *)
Lemma add_mul_zero (e x : float) :
  finite x = true -> e = 1%float \/ e = 0%float -> (e + x * 0)%float = e.
Proof.
  unfold finite. intros Hx He. apply Prim2SF_inj. rewrite add_spec, mul_spec.
  destruct (Prim2SF x) as [s|s| |s m ex]; try discriminate;
    destruct s, He as [-> | ->]; reflexivity.
Qed.

(** X9. The random draw in the magnetometer soft-iron term is multiplied by
    zero: whatever finite numbers [np.random.randn] returns, [mag_si] is
    exactly the identity matrix and the whole error model is the one
    obtained with a draw of zeros; [mag_hi] is the zero vector. *)
Theorem error_model_ignores_random_draw (draw : nat -> nat -> float) :
  finite_draw draw = true ->
  mag_si (imu_err draw) = np_eye 3
  /\ mag_hi (imu_err draw) = [0; 0; 0]%float
  /\ imu_err draw = imu_err (fun _ _ => 0%float).
Proof.
  unfold finite_draw, np_randn_3_3. cbn [seq map forallb]. intros H.
  repeat match goal with
         | H' : (_ && _)%bool = true |- _ => apply andb_true_iff in H'; destruct H'
         end.
  assert (E : mag_si (imu_err draw) = np_eye 3).
  { unfold imu_err, mag_si, np_add2, np_scale2, np_scale, np_randn_3_3, np_eye.
    cbn [seq map combine fst snd Nat.eqb].
    rewrite !add_mul_zero by (assumption || auto). reflexivity. }
  split; [exact E|]. split; [vm_compute; reflexivity|].
  unfold imu_err in *. cbn [mag_si] in E. rewrite E. vm_compute. reflexivity.
Qed.

Lemma error_model_ignores_random_draw_witness :
  mag_si (imu_err (fun i j => (float_of_nat (3 * i + j) - 2.5)%float)) = np_eye 3.
Proof.
  apply (@error_model_ignores_random_draw
           (fun i j => (float_of_nat (3 * i + j) - 2.5)%float)).
  vm_compute. reflexivity.
Defined.

(** * Further properties of the recorder *)

(** Subtracting [+0] changes no float. *)
Lemma sub_zero (x : float) : (x - 0)%float = x.
Proof.
  apply Prim2SF_inj. rewrite sub_spec.
  destruct (Prim2SF x) as [s|s| |s m e]; try reflexivity.
  destruct s; reflexivity.
Qed.

Lemma sub3_zero (v : Vector3) : sub3 v zero3 = v.
Proof. destruct v as [x y z]. unfold sub3, zero3. simpl. now rewrite !sub_zero. Qed.

Section RecorderExtras.

Variables Time Duration : Type.
Variable time_add : Time -> Duration -> Time.
Variable from_sec : float -> Duration.
Variable earth_params : Type.
Variable geo_param : list float -> earth_params.
Variable item2 : earth_params -> float.
Variables topic_name_imu topic_name_pos : string.
Variable timestamp_start : Time.

Local Abbreviation step :=
  (record_step time_add from_sec geo_param item2
     topic_name_imu topic_name_pos timestamp_start).
Local Abbreviation loop :=
  (recorder_loop time_add from_sec geo_param item2
     topic_name_imu topic_name_pos timestamp_start).
Local Abbreviation recorder :=
  (gnss_ins_sim_recorder time_add from_sec geo_param item2
     topic_name_imu topic_name_pos timestamp_start).
Local Abbreviation entries :=
  (entries_of time_add from_sec geo_param item2
     topic_name_imu topic_name_pos timestamp_start).
Local Abbreviation imu := (imu_of time_add from_sec geo_param item2 timestamp_start).
Local Abbreviation odom := (odom_of time_add from_sec timestamp_start).

(** X1. The origin locals are never read unbound.  From the initial state
    the recorder does not end with [UnboundLocalError] unless the generator
    itself raised it, and on the simulator's output it never does: the first
    iteration binds [x_ori], [y_ori] and [z_ori] before they are read and
    [idx] is never reset.  The guard is what ensures it: in a state where
    [idx] is not 0 and [x_ori] is unbound the body raises
    [UnboundLocalError]. *)
Theorem origin_never_read_unbound :
  (forall g : gen measurement,
      raised g <> Some UnboundLocalError ->
      snd (loop (init_state Time) g) <> Some UnboundLocalError)
  /\ (forall (sim : sim_data) (fs_imu : float),
        snd (recorder sim fs_imu) <> Some UnboundLocalError)
  /\ (forall (st : rec_state Time) (m : measurement),
        idx st <> 0 -> x_ori st = None -> step st m = Raised UnboundLocalError).
Proof.
  assert (G : forall g : gen measurement, snd (loop (init_state Time) g) = raised g).
  { intros g. rewrite recorder_loop_init. now destruct (emitted g). }
  split; [intros g Hg; now rewrite G|]. split.
  - intros sim fs_imu. unfold gnss_ins_sim_recorder. rewrite G.
    unfold get_gnss_ins_sim.
    destruct (fs_imu =? 0)%float; cbn [raised]; [discriminate|].
    intros H. apply gen_loop_raised in H. destruct H as [H _]. discriminate H.
  - intros [i xo yo zo b c] m. cbn [idx x_ori]. intros Hi ->.
    unfold record_step, set_pose. cbn [idx].
    destruct i as [|i]; [congruence|]. reflexivity.
Qed.

Lemma flat_map_entries_firstn (o : Vector3) (n : nat) (ms : list measurement) :
  flat_map (entries o) (firstn n ms) = firstn (2 * n) (flat_map (entries o) ms).
Proof.
  revert ms. induction n as [|n IH]; intros [|m ms]; try reflexivity.
  replace (2 * S n) with (S (S (2 * n))) by lia.
  cbn [firstn flat_map entries_of app]. now rewrite IH.
Qed.

(** X2. Recording only the first [n] samples of every series writes exactly
    the first [2 n] entries of the full recording, and calls the resolver on
    the first [n] of the full run's arguments: what is written for a record
    does not depend on the samples after it. *)
Theorem bag_of_truncated_input (n : nat) (sim : sim_data) (fs_imu : float) :
  bag (fst (recorder (truncate n sim) fs_imu))
  = firstn (2 * n) (bag (fst (recorder sim fs_imu)))
  /\ geo_calls (fst (recorder (truncate n sim) fs_imu))
     = firstn n (geo_calls (fst (recorder sim fs_imu))).
Proof.
  unfold gnss_ins_sim_recorder. rewrite !recorder_loop_init.
  rewrite get_gnss_ins_sim_truncate.
  destruct (emitted (get_gnss_ins_sim sim fs_imu)) as [|m0 ms].
  - rewrite firstn_nil. cbn [fst bag geo_calls init_state]. now rewrite !firstn_nil.
  - destruct n as [|n]; [split; reflexivity|].
    cbn [firstn fst written bag geo_calls init_state app].
    change (m0 :: firstn n ms) with (firstn (S n) (m0 :: ms)).
    rewrite flat_map_entries_firstn, <- firstn_map. split; reflexivity.
Qed.

Lemma zip4_nil_of_min {A B C D : Type}
  (la : list A) (lb : list B) (lc : list C) (ld : list D) :
  Nat.min (Nat.min (length la) (length lb)) (Nat.min (length lc) (length ld)) = 0 ->
  zip4 la lb lc ld = [].
Proof.
  intros H. apply length_zero_iff_nil. now rewrite zip4_length.
Qed.

(** X5. With a zero frequency the recorder ends with [ZeroDivisionError],
    and with an empty series (and a non-zero frequency) it ends normally; in
    both cases nothing is written, the resolver is never called and the
    origin stays unbound. *)
Theorem nothing_recorded_without_records (sim : sim_data) (fs_imu : float) :
  ((fs_imu =? 0)%float = true ->
   recorder sim fs_imu = (init_state Time, Some ZeroDivisionError))
  /\ ((fs_imu =? 0)%float = false -> min4 sim = 0 ->
      recorder sim fs_imu = (init_state Time, None)).
Proof.
  split.
  - intros Hfs. rewrite recorder_empty; unfold get_gnss_ins_sim; now rewrite Hfs.
  - intros Hfs Hmin. unfold min4 in Hmin. apply zip4_nil_of_min in Hmin.
    rewrite recorder_empty; unfold get_gnss_ins_sim; now rewrite Hfs, Hmin.
Qed.

Lemma Forall_tagged_entries (o : Vector3) (ms : list measurement) :
  Forall (tagged topic_name_imu topic_name_pos) (flat_map (entries o) ms).
Proof.
  induction ms as [|m ms IH]; [constructor|].
  cbn [flat_map entries_of app].
  constructor; [cbn; auto|]. constructor; [cbn; auto|]. exact IH.
Qed.

(** X6. Every entry of the bag is written at the header stamp of its own
    message; inertial messages go to the IMU topic in frame ENU, pose
    messages to the position topic with frame and child frame inertial. *)
Theorem bag_entries_tagged (sim : sim_data) (fs_imu : float) :
  Forall (tagged topic_name_imu topic_name_pos) (bag (fst (recorder sim fs_imu))).
Proof.
  unfold gnss_ins_sim_recorder. rewrite recorder_loop_init.
  destruct (emitted (get_gnss_ins_sim sim fs_imu)) as [|m0 ms]; [constructor|].
  cbn [fst written bag init_state app]. apply Forall_tagged_entries.
Qed.

(** X7. When the first reference position is (0, 0, 0), every pose message
    carries the reference position of its record unchanged. *)
Theorem pose_absolute_when_origin_zero
  (sim : sim_data) (fs_imu : float) (i : nat) (m : measurement) (p0 : row) :
  nth_error (emitted (get_gnss_ins_sim sim fs_imu)) i = Some m ->
  nth_error (ref_pos sim) 0 = Some p0 ->
  vec3_of_row p0 = zero3 ->
  exists p msg_pos,
    nth_error (ref_pos sim) i = Some p
    /\ odom_at (bag (fst (recorder sim fs_imu))) i = Some msg_pos
    /\ pose_position msg_pos = vec3_of_row p.
Proof.
  intros Hi Hp0 Hz.
  destruct (recorder_record_rows time_add from_sec geo_param item2
              topic_name_imu topic_name_pos timestamp_start sim fs_imu i Hi)
    as (g & a & p & q & p0' & (_ & _ & Hp & _) & Hp0' & Hb & _ & _ & Hodom & _).
  rewrite Hp0 in Hp0'. inversion Hp0'; subst p0'.
  apply built_from_rows in Hb. destruct Hb as (_ & _ & Hpos).
  exists p, (odom (vec3_of_row p0) m).
  split; [exact Hp|]. split; [exact Hodom|].
  cbn [odom_of pose_position]. unfold rel_pos. now rewrite Hpos, Hz, sub3_zero.
Qed.

(** X8. A record whose reference position is the (finite) first one gets the
    zero pose, and its acceleration is corrected with the gravity the
    resolver returns for (0, 0, 0). *)
Theorem record_at_origin
  (sim : sim_data) (fs_imu : float) (i : nat) (m : measurement) (p0 p : row) :
  nth_error (emitted (get_gnss_ins_sim sim fs_imu)) i = Some m ->
  nth_error (ref_pos sim) 0 = Some p0 ->
  nth_error (ref_pos sim) i = Some p ->
  vec3_of_row p = vec3_of_row p0 ->
  finite3 (vec3_of_row p0) = true ->
  exists msg msg_pos,
    imu_at (bag (fst (recorder sim fs_imu))) i = Some msg
    /\ odom_at (bag (fst (recorder sim fs_imu))) i = Some msg_pos
    /\ pose_position msg_pos = zero3
    /\ nth_error (geo_calls (fst (recorder sim fs_imu))) i = Some [0; 0; 0]%float
    /\ vz (linear_acceleration msg)
       = (accel_z (data m) + item2 (geo_param [0; 0; 0]))%float.
Proof.
  intros Hi Hp0 Hp Heq Hfin.
  destruct (recorder_record_rows time_add from_sec geo_param item2
              topic_name_imu topic_name_pos timestamp_start sim fs_imu i Hi)
    as (g & a & p' & q & p0' & (_ & _ & Hp' & _) & Hp0' & Hb & _ & Himu & Hodom & Hgeo).
  rewrite Hp0 in Hp0'. inversion Hp0'; subst p0'.
  rewrite Hp in Hp'. inversion Hp'; subst p'.
  apply built_from_rows in Hb. destruct Hb as (_ & _ & Hpos).
  assert (R : rel_pos (vec3_of_row p0) (data m) = zero3).
  { unfold rel_pos. rewrite Hpos, Heq. now apply sub3_diag_finite. }
  exists (imu (vec3_of_row p0) m), (odom (vec3_of_row p0) m).
  split; [exact Himu|]. split; [exact Hodom|].
  split; [cbn [odom_of pose_position]; exact R|].
  split; [rewrite Hgeo, R; reflexivity|].
  cbn [imu_of linear_acceleration vz]. unfold gravity. now rewrite R.
Qed.

(** X10. For every emitted record, the position published in the pose
    message is exactly the argument the resolver was called with for that
    record. *)
Theorem pose_is_resolver_argument
  (sim : sim_data) (fs_imu : float) (i : nat) (m : measurement) :
  nth_error (emitted (get_gnss_ins_sim sim fs_imu)) i = Some m ->
  exists msg_pos,
    odom_at (bag (fst (recorder sim fs_imu))) i = Some msg_pos
    /\ nth_error (geo_calls (fst (recorder sim fs_imu))) i
       = Some (components (pose_position msg_pos)).
Proof.
  intros Hi.
  destruct (recorder_record time_add from_sec geo_param item2
              topic_name_imu topic_name_pos timestamp_start sim fs_imu i Hi)
    as (m0 & _ & _ & _ & Hodom & Hgeo).
  exists (odom (position_of (data m0)) m). split; [exact Hodom|exact Hgeo].
Qed.

End RecorderExtras.

(** *** The further properties on concrete runs *)

Lemma nothing_recorded_without_records_witness :
  Scenario.run 9.81 Scenario.empty_gyro 100 = (init_state float, None).
Proof.
  apply (proj2 (@nothing_recorded_without_records _ _ Scenario.time_add Scenario.from_sec
                  _ (Scenario.fixed_gravity 9.81) Scenario.item2
                  "imu"%string "pos"%string 0%float Scenario.empty_gyro 100%float));
    vm_compute; reflexivity.
Defined.

(** From (0, 0, 0) to (5, 0, 0): the second pose is (5, 0, 0). *)
Lemma pose_absolute_when_origin_zero_witness :
  exists msg_pos,
    odom_at (bag (fst (Scenario.run 9.81 Trajectory.from_zero 100))) 1 = Some msg_pos
    /\ pose_position msg_pos = {| vx := 5%float; vy := 0%float; vz := 0%float |}.
Proof.
  edestruct (@pose_absolute_when_origin_zero _ _ Scenario.time_add Scenario.from_sec
               _ (Scenario.fixed_gravity 9.81) Scenario.item2
               "imu"%string "pos"%string 0%float Trajectory.from_zero 100%float 1)
    as (p & msg_pos & Hp & Hodom & Hpos).
  - vm_compute. reflexivity.
  - reflexivity.
  - vm_compute. reflexivity.
  - exists msg_pos. split; [exact Hodom|]. rewrite Hpos.
    simpl in Hp. inversion Hp. reflexivity.
Defined.

(** Back at the start, (3, 4, 5), the third pose is the zero vector and the
    resolver is called on (0, 0, 0). *)
Lemma record_at_origin_witness :
  exists msg_pos,
    odom_at (bag (fst (Scenario.run 9.81 Trajectory.there_and_back 100))) 2 = Some msg_pos
    /\ pose_position msg_pos = zero3
    /\ nth_error (geo_calls (fst (Scenario.run 9.81 Trajectory.there_and_back 100))) 2
       = Some [0; 0; 0]%float.
Proof.
  edestruct (@record_at_origin _ _ Scenario.time_add Scenario.from_sec
               _ (Scenario.fixed_gravity 9.81) Scenario.item2
               "imu"%string "pos"%string 0%float Trajectory.there_and_back 100%float 2)
    as (msg & msg_pos & _ & Hodom & Hpos & Hgeo & _).
  - vm_compute. reflexivity.
  - reflexivity.
  - reflexivity.
  - vm_compute. reflexivity.
  - vm_compute. reflexivity.
  - exists msg_pos. split; [exact Hodom|]. split; [exact Hpos|exact Hgeo].
Defined.

(** On the two-sample trajectory the second pose and the second resolver
    argument are both (5, 0, 0). *)
Lemma pose_is_resolver_argument_witness :
  exists msg_pos,
    odom_at (bag (fst (Scenario.run 9.81 Scenario.two_samples 100))) 1 = Some msg_pos
    /\ nth_error (geo_calls (fst (Scenario.run 9.81 Scenario.two_samples 100))) 1
       = Some (components (pose_position msg_pos)).
Proof.
  apply (@pose_is_resolver_argument _ _ Scenario.time_add Scenario.from_sec
           _ (Scenario.fixed_gravity 9.81) Scenario.item2
           "imu"%string "pos"%string 0%float Scenario.two_samples 100%float 1
           {| stamp := 0.01%float;
              data := {| gyro_x := 0.04%float; gyro_y := 0.05%float; gyro_z := 0.06%float;
                         accel_x := 0.3%float; accel_y := 0.4%float; accel_z := 9.6%float;
                         ref_pos_x := 8%float; ref_pos_y := 4%float; ref_pos_z := 5%float;
                         q0 := 0.2%float; q1 := 0.3%float; q2 := 0.4%float;
                         q3 := 0.8%float |} |}).
  vm_compute. reflexivity.
Defined.
